(** * Path and socket resolution of the nordvpn [internal] package

    A shallow embedding of [internal/constants.go]: the constants the
    resolution functions use, the functions themselves
    ([GetSupportedIPTables], [GetFilesharedSocket],
    [GetFilesharedConfigDirPath], [GetFilesharedLogPath],
    [GetNordvpnGid]) and, since those functions are thin layers over
    the Go standard library, a model of the library calls they make
    ([filepath.Join], [strconv.Atoi], [os.Stat], [os.IsNotExist],
    [user.LookupId], [user.LookupGroup], [log.Printf]).

    Strings are [string]; Go's [int] is [Z] (no arithmetic is done on
    it, it is only printed and parsed); the operating system is an
    explicit value [OS] that the functions read; logging and run-time
    panics are threaded through a small monad; what a process keeps
    from one call to the next (the record cached by [user.Current], the
    lines of the logger) is the record [Process]. *)

From Stdlib Require Import ZArith List String Ascii Bool Lia.
From Stdlib Require Import DecimalString DecimalZ DecimalN DecimalPos.
Import ListNotations.

Open Scope string_scope.

(** ** Package [strings] *)

Module strings.

(** [strings.Join(elems, sep)] *)
Fixpoint Join (elems : list string) (sep : string) : string :=
  match elems with
  | [] => ""
  | [e] => e
  | e :: rest => e ++ sep ++ Join rest sep
  end.

End strings.

(** ** Package [path/filepath], Unix flavour *)

Module filepath.

Definition Separator : ascii := "/"%char.

Definition IsPathSeparator (c : ascii) : bool := Ascii.eqb c Separator.

(** The path elements the scanning loop of [Clean] visits: the maximal
    separator-free pieces of [path], in order.  Two adjacent
    separators, a leading one and a trailing one each contribute an
    empty piece (the iterations of the loop that only skip a
    separator). *)
Fixpoint elements (path : string) : list string :=
  match path with
  | EmptyString => [""]
  | String c rest =>
      if IsPathSeparator c then "" :: elements rest
      else match elements rest with
           | [] => [String c ""]
           | e :: es => String c e :: es
           end
  end.

(** Whether a separator occurs in [s]. *)
Fixpoint has_sep (s : string) : bool :=
  match s with
  | EmptyString => false
  | String c rest => orb (IsPathSeparator c) (has_sep rest)
  end.

Definition rooted (path : string) : bool :=
  match path with
  | String c _ => IsPathSeparator c
  | EmptyString => false
  end.

(** The output buffer of [Clean], kept as the elements written so far
    (most recent first) together with [dotdot], the number of leading
    elements that a later [..] may not remove (Go keeps the same
    information as a byte offset into the buffer). *)
Record lazybuf : Type := mkbuf { out : list string; dotdot : nat }.

(** One iteration of the loop of [Clean] on the element [e]. *)
Definition clean_step (is_rooted : bool) (b : lazybuf) (e : string) : lazybuf :=
  if String.eqb e "" then b                       (* empty path element *)
  else if String.eqb e "." then b                 (* . element *)
  else if String.eqb e ".." then                  (* .. element *)
    if Nat.ltb (dotdot b) (List.length (out b))
    then mkbuf (List.tl (out b)) (dotdot b)       (* can backtrack *)
    else if negb is_rooted
         then mkbuf (".." :: out b) (S (List.length (out b)))
         else b
  else mkbuf (e :: out b) (dotdot b).             (* real path element *)

Definition render (is_rooted : bool) (b : lazybuf) : string :=
  let body := strings.Join (List.rev (out b)) "/" in
  if is_rooted then "/" ++ body
  else match out b with
       | [] => "."                                (* turn empty string into "." *)
       | _ => body
       end.

(** [filepath.Clean(path)] *)
Definition Clean (path : string) : string :=
  if String.eqb path "" then "."
  else render (rooted path)
         (List.fold_left (clean_step (rooted path)) (elements path) (mkbuf [] 0)).

(** [filepath.Join(elem...)]: the elements from the first non-empty
    one on are joined with the separator and the result is cleaned. *)
Fixpoint Join (elem : list string) : string :=
  match elem with
  | [] => ""
  | e :: rest =>
      if String.eqb e "" then Join rest
      else Clean (strings.Join elem "/")
  end.

(** An element that the loop of [Clean] copies to the output. *)
Definition real_element (e : string) : Prop :=
  String.eqb e "" = false /\ String.eqb e "." = false /\ String.eqb e ".." = false.

End filepath.

(** ** Package [strconv] *)

Module strconv.

(** [strconv.Itoa(i)]: the decimal text of [i], with a leading [-]
    for a negative number. *)
Definition Itoa (i : Z) : string := NilZero.string_of_int (Z.to_int i).

(** The value of the byte [ch] as a decimal digit ([ch -= '0'] and the
    test [ch > 9] of the parsing loop). *)
Definition digit (ch : ascii) : option Z :=
  let n := nat_of_ascii ch in
  if andb (Nat.leb 48 n) (Nat.leb n 57) then Some (Z.of_nat (n - 48)%nat) else None.

(** The parsing loop: [n = n*10 + int(ch)] over the bytes of [s],
    stopping at the first byte that is not a digit. *)
Fixpoint digits (s : string) (n : Z) : option Z :=
  match s with
  | EmptyString => Some n
  | String ch rest =>
      match digit ch with
      | Some d => digits rest (n * 10 + d)
      | None => None
      end
  end.

Inductive NumErr : Type := ErrSyntax | ErrRange.

Local Open Scope Z_scope.

Definition MaxInt : Z := 2 ^ 63 - 1.
Definition MinInt : Z := - 2 ^ 63.

(** What [Atoi] computes on a 64-bit platform, before the error is
    wrapped: an optional sign, then at least one decimal digit and
    nothing else; a value outside [int] is clamped and reported as
    out of range. *)
Definition parse (s : string) : Z * option NumErr :=
  let '(neg, body) :=
    match s with
    | String c rest =>
        if Ascii.eqb c "-" then (true, rest)
        else if Ascii.eqb c "+" then (false, rest)
        else (false, s)
    | EmptyString => (false, s)
    end in
  match body with
  | EmptyString => (0, Some ErrSyntax)
  | _ =>
      match digits body 0 with
      | None => (0, Some ErrSyntax)
      | Some un =>
          if andb (negb neg) (MaxInt <? un) then (MaxInt, Some ErrRange)
          else if andb neg (- MinInt <? un) then (MinInt, Some ErrRange)
          else (if neg then - un else un, None)
      end
  end.

End strconv.

(** ** Error values *)

(** The error numbers [stat(2)] and the account database can report. *)
Inductive Errno : Type :=
| ENOENT | EACCES | ENOTDIR | ELOOP | ENAMETOOLONG | EIO | ENOMEM.

Definition Errno_Error (e : Errno) : string :=
  match e with
  | ENOENT => "no such file or directory"
  | EACCES => "permission denied"
  | ENOTDIR => "not a directory"
  | ELOOP => "too many levels of symbolic links"
  | ENAMETOOLONG => "file name too long"
  | EIO => "input/output error"
  | ENOMEM => "cannot allocate memory"
  end.

(** The dynamic types of the [error] values that reach this package. *)
Inductive error : Type :=
| errorString (s : string)                         (* errors.New, fmt.Errorf *)
| PathError (Op Path : string) (Err : Errno)       (* *fs.PathError *)
| NumError (Func Num : string) (Err : strconv.NumErr)  (* *strconv.NumError *)
| UnknownUserIdError (uid : Z)                     (* user.UnknownUserIdError *)
| UnknownGroupError (name : string).               (* user.UnknownGroupError *)

Definition dquote : string := String (ascii_of_nat 34) "".

(** The method [Error()].  The number text of a [NumError] is shown
    between double quotes; [strconv.Quote] would also escape unprintable
    bytes, which no function below distinguishes. *)
Definition Error (e : error) : string :=
  match e with
  | errorString s => s
  | PathError op path err => op ++ " " ++ path ++ ": " ++ Errno_Error err
  | NumError fn num err =>
      "strconv." ++ fn ++ ": parsing " ++ dquote ++ num ++ dquote ++ ": " ++
      match err with
      | strconv.ErrSyntax => "invalid syntax"
      | strconv.ErrRange => "value out of range"
      end
  | UnknownUserIdError uid => "user: unknown userid " ++ strconv.Itoa uid
  | UnknownGroupError name => "group: unknown group " ++ name
  end.

(** [strconv.Atoi(s)] *)
Definition Atoi (s : string) : Z * option error :=
  match strconv.parse s with
  | (n, None) => (n, None)
  | (n, Some e) => (n, Some (NumError "Atoi" s e))
  end.

(** ** The operating system

    What the package can observe of the machine it runs on: the answer
    of [stat(2)] for every path, and the entries of the user and group
    databases.  [entry_exists] is the ground truth [stat] reports on:
    whether the path names an existing file. *)

Record passwd : Type := mkpasswd {
  pw_name : string;
  pw_uid : Z;
  pw_gid : Z;
  pw_gecos : string;
  pw_dir : string
}.

Record grent : Type := mkgrent {
  gr_name : string;
  gr_gid : Z
}.

(** The three ways a database query ends. *)
Inductive lookup (A : Type) : Type :=
| Found (a : A)
| Missing
| Failed (e : Errno).
Arguments Found {A} a.
Arguments Missing {A}.
Arguments Failed {A} e.

Record OS : Type := mkOS {
  entry_exists : string -> bool;
  stat_errno : string -> option Errno;     (* [None]: stat(2) succeeded *)
  getpwuid : Z -> lookup passwd;
  getgrnam : string -> lookup grent
}.

(** [stat] succeeds only on what exists, and reports [ENOENT] only on
    what does not; any other error leaves the question open. *)
Definition fs_consistent (sys : OS) : Prop :=
  forall p,
    (stat_errno sys p = None -> entry_exists sys p = true) /\
    (stat_errno sys p = Some ENOENT -> entry_exists sys p = false).

(** ** Package [os] *)

Module os.

(** [os.Stat(name)], error component (every caller in this package
    drops the [FileInfo]). *)
Definition Stat (sys : OS) (name : string) : option error :=
  match stat_errno sys name with
  | None => None
  | Some e => Some (PathError "stat" name e)
  end.

(** [os.IsNotExist(err)] *)
Definition IsNotExist (err : option error) : bool :=
  match err with
  | Some (PathError _ _ ENOENT) => true
  | _ => false
  end.

End os.

(** ** Package [os/user], as built with cgo on Linux *)

Module user.

Record User : Type := mkUser {
  Uid : string;
  Gid : string;
  Username : string;
  Name : string;
  HomeDir : string
}.

Record Group : Type := mkGroup {
  GroupGid : string;
  GroupName : string
}.

(** The GECOS field up to its first comma. *)
Fixpoint before_comma (s : string) : string :=
  match s with
  | EmptyString => EmptyString
  | String c rest => if Ascii.eqb c ","%char then EmptyString else String c (before_comma rest)
  end.

Definition buildUser (pwd : passwd) : User :=
  mkUser (strconv.Itoa (pw_uid pwd)) (strconv.Itoa (pw_gid pwd))
         (pw_name pwd) (before_comma (pw_gecos pwd)) (pw_dir pwd).

Definition buildGroup (grp : grent) : Group :=
  mkGroup (strconv.Itoa (gr_gid grp)) (gr_name grp).

(** [user.LookupId(uid)]: a [*User] (nil: [None]) and an error.  The
    text is parsed as a number, then the database is asked.  (The
    shortcut through the cached current user returns the record the
    database holds for it.) *)
Definition LookupId (sys : OS) (uid : string) : option User * option error :=
  match Atoi uid with
  | (_, Some e) => (None, Some e)
  | (i, None) =>
      match getpwuid sys i with
      | Found pwd => (Some (buildUser pwd), None)
      | Missing => (None, Some (UnknownUserIdError i))
      | Failed e =>
          (None, Some (errorString
             ("user: lookup userid " ++ strconv.Itoa i ++ ": " ++ Errno_Error e)))
      end
  end.

(** [user.LookupGroup(name)] *)
Definition LookupGroup (sys : OS) (name : string) : option Group * option error :=
  match getgrnam sys name with
  | Found grp => (Some (buildGroup grp), None)
  | Missing => (None, Some (UnknownGroupError name))
  | Failed e =>
      (None, Some (errorString
         ("user: lookup groupname " ++ name ++ ": " ++ Errno_Error e)))
  end.

End user.


(** ** Go computations that log and may panic *)

Inductive outcome (A : Type) : Type :=
| Returned (a : A)
| Panicked (msg : string).
Arguments Returned {A} a.
Arguments Panicked {A} msg.

(** A computation takes the lines logged so far and yields its outcome
    with the lines logged by the time it stops. *)
Definition Go (A : Type) : Type := list string -> outcome A * list string.

Definition ret {A} (a : A) : Go A := fun lines => (Returned a, lines).

Definition bind {A B} (m : Go A) (k : A -> Go B) : Go B :=
  fun lines =>
    match m lines with
    | (Returned a, lines') => k a lines'
    | (Panicked msg, lines') => (Panicked msg, lines')
    end.

Notation "x <- m ;; k" := (bind m (fun x => k))
  (at level 61, m at next level, right associativity).
Notation "m ;;; k" := (bind m (fun _ => k))
  (at level 61, right associativity).

Definition panic {A} (msg : string) : Go A := fun lines => (Panicked msg, lines).

(** [log.Printf]: one more line on the standard logger (the line is
    recorded without the time stamp the logger puts in front). *)
Definition log_Printf (line : string) : Go unit :=
  fun lines => (Returned tt, (lines ++ [line])%list).

Definition nil_dereference : string :=
  "runtime error: invalid memory address or nil pointer dereference".

(** Reading a field through a pointer: a nil pointer panics. *)
Definition deref {A} (p : option A) : Go A :=
  match p with
  | Some a => ret a
  | None => panic nil_dereference
  end.

(** ** Package [internal]: constants *)

Definition RunDir : string := "/run/nordvpn/".
Definition LogPath : string := "/var/log/nordvpn/".
Definition NordvpnGroup : string := "nordvpn".
Definition DaemonSocket : string := RunDir ++ "nordvpnd.sock".
Definition Fileshared : string := "nordfileshared".
Definition ConfigDirectory : string := ".config".
Definition UserDataPath : string := "nordvpn/".
Definition AppDataPath : string := "/var/lib/nordvpn/".
Definition DatFilesPath : string := AppDataPath ++ "data/".
Definition BakFilesPath : string := AppDataPath ++ "backup/".

(** The package variables [PlatformSupportsIPv4] and
    [PlatformSupportsIPv6]. *)
Record Platform : Type := mkPlatform {
  PlatformSupportsIPv4 : bool;
  PlatformSupportsIPv6 : bool
}.

(** Their values when the package is initialised. *)
Definition initial_platform : Platform := mkPlatform true true.

(** ** Package [internal]: functions *)

Definition GetSupportedIPTables (vars : Platform) : list string :=
  let iptables : list string := [] in
  let iptables :=
    if PlatformSupportsIPv4 vars then (iptables ++ ["iptables"])%list else iptables in
  let iptables :=
    if PlatformSupportsIPv6 vars then (iptables ++ ["ip6tables"])%list else iptables in
  iptables.

(** The two shapes of the file-sharing socket path:
    [fmt.Sprintf("/run/%s/%s.sock", Fileshared, Fileshared)] and
    [fmt.Sprintf("/run/user/%d/%s/%s.sock", uid, Fileshared, Fileshared)]. *)
Definition system_socket : string :=
  "/run/" ++ Fileshared ++ "/" ++ Fileshared ++ ".sock".

Definition user_socket (uid : Z) : string :=
  "/run/user/" ++ strconv.Itoa uid ++ "/" ++ Fileshared ++ "/" ++ Fileshared ++ ".sock".

(** [fmt.Sprintf("/run/user/%d", uid)] *)
Definition runtime_dir (uid : Z) : string := "/run/user/" ++ strconv.Itoa uid.

Definition GetFilesharedSocket (sys : OS) (uid : Z) : string :=
  let err := os.Stat sys (runtime_dir uid) in
  if orb (Z.eqb uid 0) (os.IsNotExist err) then system_socket
  else user_socket uid.

Definition errNoHome : error :=
  errorString "user does not have a home directory".

(** [fmt.Errorf("%s directory not found in users home directory", ConfigDirectory)] *)
Definition errConfigNotFound : error :=
  errorString (ConfigDirectory ++ " directory not found in users home directory").

Definition GetFilesharedConfigDirPath (sys : OS) (homeDirectory : string)
  : string * option error :=
  if String.eqb homeDirectory "" then ("", Some errNoHome)
  else
    let userConfigPath := filepath.Join [homeDirectory; ConfigDirectory; UserDataPath] in
    match os.Stat sys userConfigPath with
    | None => (userConfigPath, None)
    | Some _ => ("", Some errConfigNotFound)
    end.

Definition GetFilesharedLogPath (sys : OS) (uid : string) : Go string :=
  let filesharedLogFilename := Fileshared ++ ".log" in
  if String.eqb uid "0" then ret (filepath.Join [LogPath; filesharedLogFilename])
  else
    let '(usr, err) := user.LookupId sys uid in
    match err with
    | Some e =>
        log_Printf ("failed to lookup user, users fileshared logs will be stored in "
                    ++ LogPath ++ ": " ++ Error e)
    | None => ret tt
    end ;;;
    u <- deref usr ;;
    let '(configDir, err) := GetFilesharedConfigDirPath sys (user.HomeDir u) in
    match err with
    | Some e =>
        log_Printf ("users fileshared logs will be stored in "
                    ++ LogPath ++ ": " ++ Error e) ;;;
        ret (filepath.Join [LogPath; Fileshared ++ "-" ++ uid ++ ".log"])
    | None => ret (filepath.Join [configDir; filesharedLogFilename])
    end.

Definition GetNordvpnGid (sys : OS) : Go (Z * option error) :=
  let '(group, err) := user.LookupGroup sys NordvpnGroup in
  match err with
  | Some e => ret (0%Z, Some e)
  | None =>
      g <- deref group ;;
      ret (Atoi (user.GroupGid g))
  end.

(** ** The process

    What the running program itself keeps from one call to the next,
    as far as the functions of this package reach it: the record
    [user.Current] caches (filled once, on first use, and never
    refreshed) and the lines written through the standard logger.
    [proc_uid] is the real user id of the process, the one
    [user.Current] looks up. *)

Record Process : Type := mkProcess {
  proc_uid : Z;
  current_cache : option (option user.User * option error);
  logged : list string
}.

(** A computation of the process: it may change what the process
    keeps. *)
Definition Run (A : Type) : Type := Process -> outcome A * Process.

Module process.

Definition ret {A} (a : A) : Run A := fun p => (Returned a, p).

Definition bind {A B} (m : Run A) (k : A -> Run B) : Run B :=
  fun p =>
    match m p with
    | (Returned a, p') => k a p'
    | (Panicked msg, p') => (Panicked msg, p')
    end.

Notation "x <~ m ;; k" := (bind m (fun x => k))
  (at level 61, m at next level, right associativity).
Notation "m ~;; k" := (bind m (fun _ => k))
  (at level 61, right associativity).

Definition deref {A} (ptr : option A) : Run A :=
  match ptr with
  | Some a => ret a
  | None => fun p => (Panicked nil_dereference, p)
  end.

(** [log.Printf] in the process: the line goes to its logger. *)
Definition Printf (line : string) : Run unit :=
  fun p =>
    let '(o, lines) := log_Printf line (logged p) in
    (o, mkProcess (proc_uid p) (current_cache p) lines).

(** [lookupUnixUid(uid)]: the user database asked for a number. *)
Definition lookupUnixUid (sys : OS) (uid : Z) : option user.User * option error :=
  match getpwuid sys uid with
  | Found pwd => (Some (user.buildUser pwd), None)
  | Missing => (None, Some (UnknownUserIdError uid))
  | Failed e =>
      (None, Some (errorString
         ("user: lookup userid " ++ strconv.Itoa uid ++ ": " ++ Errno_Error e)))
  end.

(** [lookupUserId(uid)] *)
Definition lookupUserId (sys : OS) (uid : string) : option user.User * option error :=
  match Atoi uid with
  | (_, Some e) => (None, Some e)
  | (i, None) => lookupUnixUid sys i
  end.

(** [cache.Do(func() { cache.u, cache.err = current() })]: the cache
    is filled from the user database the first time and left alone
    afterwards. *)
Definition cache_Do (sys : OS) : Run (option user.User * option error) :=
  fun p =>
    match current_cache p with
    | Some c => (Returned c, p)
    | None =>
        let c := lookupUnixUid sys (proc_uid p) in
        (Returned c, mkProcess (proc_uid p) (Some c) (logged p))
    end.

(** [user.Current()] *)
Definition Current (sys : OS) : Run (option user.User * option error) :=
  c <~ cache_Do sys ;;
  match snd c with
  | Some e => ret (None, Some e)
  | None =>
      u <~ deref (fst c) ;;                         (* u := *cache.u *)
      ret (Some u, None)
  end.

(** [user.LookupId(uid)], with its shortcut through [Current]. *)
Definition LookupId (sys : OS) (uid : string) : Run (option user.User * option error) :=
  r <~ Current sys ;;
  match r with
  | (Some u, None) =>
      if String.eqb (user.Uid u) uid then ret (Some u, None)
      else ret (lookupUserId sys uid)
  | _ => ret (lookupUserId sys uid)
  end.

(** [GetFilesharedLogPath] as the process runs it. *)
Definition GetFilesharedLogPath (sys : OS) (uid : string) : Run string :=
  let filesharedLogFilename := Fileshared ++ ".log" in
  if String.eqb uid "0" then ret (filepath.Join [LogPath; filesharedLogFilename])
  else
    r <~ LookupId sys uid ;;
    let '(usr, err) := r in
    match err with
    | Some e =>
        Printf ("failed to lookup user, users fileshared logs will be stored in "
                ++ LogPath ++ ": " ++ Error e)
    | None => ret tt
    end ~;;
    u <~ deref usr ;;
    let '(configDir, err) := GetFilesharedConfigDirPath sys (user.HomeDir u) in
    match err with
    | Some e =>
        Printf ("users fileshared logs will be stored in "
                ++ LogPath ++ ": " ++ Error e) ~;;
        ret (filepath.Join [LogPath; Fileshared ++ "-" ++ uid ++ ".log"])
    | None => ret (filepath.Join [configDir; filesharedLogFilename])
    end.

(** [GetNordvpnGid] as the process runs it. *)
Definition GetNordvpnGid (sys : OS) : Run (Z * option error) :=
  let '(group, err) := user.LookupGroup sys NordvpnGroup in
  match err with
  | Some e => ret (0%Z, Some e)
  | None =>
      g <~ deref group ;;
      ret (Atoi (user.GroupGid g))
  end.

End process.

(** ** Sample machines *)

Definition alice : passwd := mkpasswd "alice" 1000 1000 "Alice Example,,," "/home/alice".

Definition bob : passwd := mkpasswd "bob" 1001 1001 "Bob" "/home/bob".

Definition nordvpn_group : grent := mkgrent "nordvpn" 998.

Definition desktop_files : list string :=
  ["/run/user/1000"; "/home/alice"; "/home/alice/.config";
   "/home/alice/.config/nordvpn"; "/home/bob"].

(** A desktop: alice is logged in and has a configuration directory,
    bob has an account but no session and no configuration directory. *)
Definition desktop : OS :=
  mkOS (fun p => List.existsb (String.eqb p) desktop_files)
       (fun p => if List.existsb (String.eqb p) desktop_files then None else Some ENOENT)
       (fun uid => if Z.eqb uid 1000 then Found alice
                   else if Z.eqb uid 1001 then Found bob else Missing)
       (fun name => if String.eqb name "nordvpn" then Found nordvpn_group else Missing).

(** A machine with no files, no accounts and no groups. *)
Definition bare : OS :=
  mkOS (fun _ => false) (fun _ => Some ENOENT) (fun _ => Missing) (fun _ => Missing).

(** A machine on which every [stat] is refused, whatever the path, and
    nothing of what is asked for exists. *)
Definition locked : OS :=
  mkOS (fun _ => false) (fun _ => Some EACCES)
       (fun uid => if Z.eqb uid 1000 then Found alice else Missing)
       (fun _ => Failed EIO).

(** A machine on which [/run/user] is a regular file: [stat] of a path
    below it fails with "not a directory". *)
Definition flat : OS :=
  mkOS (fun p => String.eqb p "/run/user")
       (fun p => if String.eqb p "/run/user" then None
                 else if String.prefix "/run/user/" p then Some ENOTDIR
                 else Some ENOENT)
       (fun _ => Missing) (fun _ => Missing).

(** A machine on which every path exists and [stat] always succeeds. *)
Definition roomy : OS :=
  mkOS (fun _ => true) (fun _ => None)
       (fun uid => if Z.eqb uid 1000 then Found alice else Missing)
       (fun name => if String.eqb name "nordvpn" then Found nordvpn_group else Missing).

(** The desktop again, described differently: the same answers from
    [stat] and the databases. *)
Definition desktop_again : OS :=
  mkOS (fun p => negb (negb (List.existsb (String.eqb p) desktop_files)))
       (fun p => if negb (List.existsb (String.eqb p) desktop_files)
                 then Some ENOENT else None)
       (fun uid => if Z.eqb uid 1001 then Found bob
                   else if Z.eqb uid 1000 then Found alice else Missing)
       (fun name => if String.eqb "nordvpn" name then Found nordvpn_group else Missing).

(** ** Definitions used in the statements and proofs *)

(** The number the parsing loop reaches on the digits [d], started
    from [acc]. *)
Fixpoint uval (d : Decimal.uint) (acc : Z) : Z :=
  match d with
  | Decimal.Nil => acc
  | Decimal.D0 l => uval l (acc * 10 + 0)
  | Decimal.D1 l => uval l (acc * 10 + 1)
  | Decimal.D2 l => uval l (acc * 10 + 2)
  | Decimal.D3 l => uval l (acc * 10 + 3)
  | Decimal.D4 l => uval l (acc * 10 + 4)
  | Decimal.D5 l => uval l (acc * 10 + 5)
  | Decimal.D6 l => uval l (acc * 10 + 6)
  | Decimal.D7 l => uval l (acc * 10 + 7)
  | Decimal.D8 l => uval l (acc * 10 + 8)
  | Decimal.D9 l => uval l (acc * 10 + 9)
  end.

(** An element as [Clean] keeps it in its buffer when it is a name:
    free of separators, and none of the empty element, [.] and [..]. *)
Definition clean_element (e : string) : Prop :=
  filepath.has_sep e = false /\ filepath.real_element e.

(** The shape of the buffer of [Clean] at every iteration: names on top
    of [dotdot] leading [..] elements, and no leading [..] at all in a
    rooted path. *)
Definition buf_ok (is_rooted : bool) (b : filepath.lazybuf) : Prop :=
  exists names,
    filepath.out b = (names ++ List.repeat ".." (filepath.dotdot b))%list /\
    Forall clean_element names /\
    (is_rooted = true -> filepath.dotdot b = 0).

(** The buffer [Clean] ends its loop with. *)
Definition clean_buf (path : string) : filepath.lazybuf :=
  List.fold_left (filepath.clean_step (filepath.rooted path))
                 (filepath.elements path) (filepath.mkbuf [] 0).

(** The directory part put in front of [.config/nordvpn]: a cleaned
    home directory followed by one separator, where the root directory
    brings its own and the current directory [.] disappears. *)
Definition home_prefix (home : string) : string :=
  if String.eqb home "/" then "/"
  else if String.eqb home "." then ""
  else home ++ "/".

(** The warnings [GetFilesharedLogPath] writes. *)
Definition lookup_warning (e : error) : string :=
  "failed to lookup user, users fileshared logs will be stored in /var/log/nordvpn/: "
  ++ Error e.

Definition fallback_warning (e : error) : string :=
  "users fileshared logs will be stored in /var/log/nordvpn/: " ++ Error e.

(** Two machine states show the same to the package when [stat] answers
    alike on every path and the user and group databases hold the same
    entries.  (What exists is seen only through [stat].) *)
Definition same_observable (s1 s2 : OS) : Prop :=
  (forall p, stat_errno s1 p = stat_errno s2 p) /\
  (forall uid, getpwuid s1 uid = getpwuid s2 uid) /\
  (forall name, getgrnam s1 name = getgrnam s2 name).

(** The content of the cache of [user.Current] once it has been
    consulted: what it held, or what the user database answers for the
    process when it held nothing. *)
Definition filled (sys : OS) (p : Process) : option user.User * option error :=
  match current_cache p with
  | Some c => c
  | None => process.lookupUnixUid sys (proc_uid p)
  end.

(** What [user.LookupId] answers when the cache holds [c]. *)
Definition lookup_with (c : option user.User * option error) (sys : OS) (uid : string)
  : outcome (option user.User * option error) :=
  match c with
  | (_, Some _) => Returned (process.lookupUserId sys uid)
  | (Some u, None) =>
      if String.eqb (user.Uid u) uid then Returned (Some u, None)
      else Returned (process.lookupUserId sys uid)
  | (None, None) => Panicked nil_dereference
  end.

(** What [GetFilesharedLogPath] returns and logs after a lookup that
    answered [(usr, err)]. *)
Definition after_lookup (sys : OS) (uid : string)
           (r : option user.User * option error) : outcome string * list string :=
  match r with
  | (None, Some e) => (Panicked nil_dereference, [lookup_warning e])
  | (None, None) => (Panicked nil_dereference, [])
  | (Some u, err) =>
      let before := match err with Some e => [lookup_warning e] | None => [] end in
      match GetFilesharedConfigDirPath sys (user.HomeDir u) with
      | (_, Some e) =>
          (Returned (filepath.Join [LogPath; Fileshared ++ "-" ++ uid ++ ".log"]),
           (before ++ [fallback_warning e])%list)
      | (dir, None) =>
          (Returned (filepath.Join [dir; Fileshared ++ ".log"]), before)
      end
  end.

(** The user database gives for a number an entry of that number. *)
Definition passwd_consistent (sys : OS) : Prop :=
  forall i pwd, getpwuid sys i = Found pwd -> pw_uid pwd = i.

(** The desktop with its files gone. *)
Definition desktop_emptied : OS :=
  mkOS (fun _ => false) (fun _ => Some ENOENT) (getpwuid desktop) (getgrnam desktop).

(** A process of alice that has not asked for the current user yet. *)
Definition fresh_process : Process := mkProcess 1000 None [].

(** * Properties of the library model *)

(** ** The model on the examples of the library documentation *)

Example Clean_go_1 : filepath.Clean "abc/def/ghi/../jkl" = "abc/def/jkl".
Proof. reflexivity. Qed.
Example Clean_go_2 : filepath.Clean "abc/../../././../def" = "../../def".
Proof. reflexivity. Qed.
Example Clean_go_3 : filepath.Clean "/abc/def/../../.." = "/".
Proof. reflexivity. Qed.
Example Clean_go_4 : filepath.Clean "/../a/b/../././/c" = "/a/c".
Proof. reflexivity. Qed.
Example Clean_go_5 : filepath.Clean "abc/def/../../.." = "..".
Proof. reflexivity. Qed.
Example Clean_go_6 : filepath.Clean "abc//./../def/" = "def".
Proof. reflexivity. Qed.
Example Join_go_1 : filepath.Join ["a"; ""; "b"] = "a/b".
Proof. reflexivity. Qed.
Example Join_go_2 : filepath.Join [""; ""] = "".
Proof. reflexivity. Qed.
Example Join_go_3 : filepath.Join [""; "/"; "a/"] = "/a".
Proof. reflexivity. Qed.
Example Atoi_1 : Atoi "1000" = (1000%Z, None).
Proof. reflexivity. Qed.
Example Atoi_2 : Atoi "-007" = ((-7)%Z, None).
Proof. reflexivity. Qed.
Example Atoi_3 :
  Atoi "+" = (0%Z, Some (NumError "Atoi" "+" strconv.ErrSyntax)).
Proof. reflexivity. Qed.
Example Atoi_4 :
  Atoi "9223372036854775808"
  = (9223372036854775807%Z,
     Some (NumError "Atoi" "9223372036854775808" strconv.ErrRange)).
Proof. reflexivity. Qed.
Example Atoi_5 :
  Atoi "-9223372036854775808" = ((-9223372036854775808)%Z, None).
Proof. reflexivity. Qed.
Example Atoi_6 :
  Atoi "12a" = (0%Z, Some (NumError "Atoi" "12a" strconv.ErrSyntax)).
Proof. reflexivity. Qed.
Example Atoi_7 : Atoi "" = (0%Z, Some (NumError "Atoi" "" strconv.ErrSyntax)).
Proof. reflexivity. Qed.
Example Itoa_1 : strconv.Itoa (-15) = "-15".
Proof. reflexivity. Qed.

(** ** Strings *)

Lemma append_assoc (a b c : string) : (a ++ b) ++ c = a ++ b ++ c.
Proof.
  induction a as [|x a IH]; simpl; [reflexivity | now rewrite IH].
Qed.

Lemma Join_snoc (l : list string) (e sep : string) :
  l <> [] ->
  strings.Join (l ++ [e]) sep = strings.Join l sep ++ sep ++ e.
Proof.
  induction l as [|x l IH]; intros Hne; [congruence|].
  destruct l as [|y l].
  - reflexivity.
  - change (strings.Join ((x :: y :: l) ++ [e]) sep)
      with (x ++ sep ++ strings.Join ((y :: l) ++ [e]) sep).
    rewrite IH by discriminate.
    change (strings.Join (x :: y :: l) sep)
      with (x ++ sep ++ strings.Join (y :: l) sep).
    now rewrite !append_assoc.
Qed.

(** ** Path elements *)

Section Elements.

Import filepath.

Lemma elements_nonempty (p : string) : elements p <> [].
Proof.
  destruct p as [|c p]; simpl; [discriminate|].
  destruct (IsPathSeparator c); [discriminate|].
  destruct (elements p); discriminate.
Qed.

(** Cutting a path at a separator cuts its list of elements. *)
Lemma elements_app_sep (a b : string) :
  elements (a ++ String Separator b) = (elements a ++ elements b)%list.
Proof.
  induction a as [|c a IH]; simpl.
  - reflexivity.
  - destruct (IsPathSeparator c).
    + now rewrite IH.
    + rewrite IH. pose proof (elements_nonempty a) as Hne.
      destruct (elements a); [congruence | reflexivity].
Qed.

Lemma elements_no_sep (s : string) : has_sep s = false -> elements s = [s].
Proof.
  induction s as [|c s IH]; simpl; intros H.
  - reflexivity.
  - apply orb_false_iff in H as [Hc Hs].
    rewrite Hc, (IH Hs). reflexivity.
Qed.

Lemma has_sep_app (a b : string) :
  has_sep (a ++ b) = orb (has_sep a) (has_sep b).
Proof.
  induction a as [|c a IH]; simpl; [reflexivity|].
  now rewrite IH, orb_assoc.
Qed.

Lemma rooted_app (a b : string) : a <> "" -> rooted (a ++ b) = rooted a.
Proof.
  destruct a; [congruence | reflexivity].
Qed.


Lemma clean_step_real (r : bool) (b : lazybuf) (e : string) :
  real_element e -> clean_step r b e = mkbuf (e :: out b) (dotdot b).
Proof.
  intros (H0 & H1 & H2). unfold clean_step. now rewrite H0, H1, H2.
Qed.

End Elements.

(** ** [filepath.Join] on the paths this package builds *)

Section JoinLemmas.

Import filepath.

Lemma eqb_app_nonempty (a b : string) : a <> "" -> String.eqb (a ++ b) "" = false.
Proof.
  destruct a; [congruence | reflexivity].
Qed.

(** A file name placed under the log directory: the doubled
    separator is collapsed and nothing else changes. *)
Lemma Join_LogPath (name : string) :
  has_sep name = false ->
  real_element name ->
  Join [LogPath; name] = LogPath ++ name.
Proof.
  intros Hsep Hreal.
  change (Join [LogPath; name])
    with (Clean ("/var/log/nordvpn/" ++ String Separator name)).
  unfold Clean.
  rewrite eqb_app_nonempty by discriminate.
  rewrite rooted_app by discriminate.
  rewrite elements_app_sep, (elements_no_sep name Hsep), fold_left_app.
  cbn [fold_left].
  rewrite (clean_step_real _ _ name Hreal).
  reflexivity.
Qed.

(** The buffer after the two elements [.config] and [nordvpn] and the
    trailing separator of [UserDataPath]. *)
Lemma fold_config_tail (r : bool) (b : lazybuf) :
  fold_left (clean_step r) (elements ".config/nordvpn/") b
  = mkbuf ("nordvpn" :: ".config" :: out b) (dotdot b).
Proof.
  reflexivity.
Qed.

Lemma render_config_tail (r : bool) (b : lazybuf) (home : string) :
  render r b = home ->
  home <> "/" -> home <> "." ->
  render r (mkbuf ("nordvpn" :: ".config" :: out b) (dotdot b))
  = home ++ "/.config/nordvpn".
Proof.
  intros Hhome Hroot Hdot.
  unfold render in *. cbn [out] in *.
  assert (Hne : out b <> []).
  { intros Hnil. rewrite Hnil in Hhome. destruct r; cbn in Hhome; congruence. }
  assert (Hrev : rev (out b) <> []).
  { intros Hnil. apply Hne. rewrite <- (rev_involutive (out b)), Hnil. reflexivity. }
  assert (Hjoin : strings.Join (rev ("nordvpn" :: ".config" :: out b)) "/"
                  = strings.Join (rev (out b)) "/" ++ "/.config/nordvpn").
  { cbn [rev].
    rewrite Join_snoc by (intros Hnil; apply app_eq_nil in Hnil as [_ Hnil]; discriminate).
    rewrite (Join_snoc _ _ _ Hrev).
    rewrite !append_assoc. reflexivity. }
  rewrite Hjoin.
  destruct r.
  - rewrite <- Hhome. rewrite append_assoc. reflexivity.
  - destruct (out b); [congruence|]. rewrite <- Hhome. reflexivity.
Qed.

(** The configuration directory of a home directory that is already
    in cleaned form: the home directory, [/.config/nordvpn], and no
    trailing separator. *)
Lemma Join_config_clean (home : string) :
  home <> "" ->
  Clean home = home ->
  home <> "/" -> home <> "." ->
  Join [home; ConfigDirectory; UserDataPath] = home ++ "/.config/nordvpn".
Proof.
  intros Hne Hclean Hroot Hdot.
  unfold Join.
  destruct (String.eqb_spec home "") as [->|_]; [congruence|].
  change (strings.Join [home; ConfigDirectory; UserDataPath] "/")
    with (home ++ String Separator ".config/nordvpn/").
  unfold Clean in *.
  rewrite eqb_app_nonempty by assumption.
  rewrite rooted_app by assumption.
  destruct (String.eqb_spec home "") as [->|_]; [congruence|].
  rewrite elements_app_sep, fold_left_app, fold_config_tail.
  now apply render_config_tail.
Qed.

End JoinLemmas.

(** ** [strconv.Atoi] and [strconv.Itoa] *)

Section Strconv.

Import strconv.
Local Open Scope Z_scope.


Lemma digits_string_of_uint (d : Decimal.uint) :
  forall acc, digits (NilEmpty.string_of_uint d) acc = Some (uval d acc).
Proof.
  induction d; intros acc; cbn [NilEmpty.string_of_uint uval digits];
    [reflexivity | ..];
    match goal with
    | |- context [digit ?c] =>
        let v := eval vm_compute in (digit c) in change (digit c) with v
    end; cbn iota; apply IHd.
Qed.

Lemma uval_pos (d : Decimal.uint) :
  forall p, uval d (Z.pos p) = Z.pos (Pos.of_uint_acc d p).
Proof.
  induction d; intros p; cbn [uval Pos.of_uint_acc]; [reflexivity | ..];
    match goal with
    | |- uval _ ?a = Z.pos (Pos.of_uint_acc _ ?q) =>
        replace a with (Z.pos q) by lia
    end; apply IHd.
Qed.

Lemma uval_zero (d : Decimal.uint) : uval d 0 = Z.of_N (Pos.of_uint d).
Proof.
  induction d; cbn [uval Pos.of_uint]; [reflexivity | exact IHd | ..];
    cbn [Z.mul Z.add Z.of_N]; apply uval_pos.
Qed.

Lemma digits_to_uint (p : positive) :
  digits (NilZero.string_of_uint (Pos.to_uint p)) 0 = Some (Z.pos p).
Proof.
  pose proof (Unsigned.to_uint_nonnil p) as Hnil.
  replace (NilZero.string_of_uint (Pos.to_uint p))
    with (NilEmpty.string_of_uint (Pos.to_uint p))
    by (destruct (Pos.to_uint p); [congruence | reflexivity ..]).
  rewrite digits_string_of_uint, uval_zero, Unsigned.of_to. reflexivity.
Qed.

(** The text of a positive number starts with a digit. *)
Lemma string_of_uint_head (p : positive) :
  exists c rest,
    NilZero.string_of_uint (Pos.to_uint p) = String c rest /\
    Ascii.eqb c "-" = false /\ Ascii.eqb c "+" = false.
Proof.
  pose proof (Unsigned.to_uint_nonnil p) as Hnil.
  destruct (Pos.to_uint p); [congruence | ..];
    eexists; eexists; (split; [reflexivity | split; reflexivity]).
Qed.

(** Parsing what [Itoa] printed. *)
Lemma parse_Itoa (z : Z) :
  parse (Itoa z) =
  if MaxInt <? z then (MaxInt, Some ErrRange)
  else if z <? MinInt then (MinInt, Some ErrRange)
  else (z, None).
Proof.
  destruct z as [|p|p].
  - reflexivity.
  - unfold Itoa. cbn [Z.to_int NilZero.string_of_int].
    destruct (string_of_uint_head p) as (c & rest & Hs & Hm & Hp).
    pose proof (digits_to_uint p) as Hd. rewrite Hs in *.
    unfold parse. rewrite Hm, Hp, Hd. cbn [negb andb].
    destruct (MaxInt <? Z.pos p); reflexivity.
  - unfold Itoa. cbn [Z.to_int NilZero.string_of_int].
    destruct (string_of_uint_head p) as (c & rest & Hs & Hm & Hp).
    pose proof (digits_to_uint p) as Hd. rewrite Hs in *.
    unfold parse. cbn [Ascii.eqb Bool.eqb]. rewrite Hd. cbn [negb andb].
    replace (MaxInt <? Z.neg p) with false
      by (symmetry; apply Z.ltb_ge; unfold MaxInt; lia).
    replace (- MinInt <? Z.pos p) with (Z.neg p <? MinInt).
    + destruct (Z.neg p <? MinInt); reflexivity.
    + destruct (Z.ltb_spec (Z.neg p) MinInt), (Z.ltb_spec (- MinInt) (Z.pos p));
        try reflexivity; lia.
Qed.

(** [Atoi] after [Itoa] gives the number back whenever it reports no
    error. *)
Lemma Atoi_Itoa_ok (z n : Z) : Atoi (Itoa z) = (n, None) -> n = z.
Proof.
  unfold Atoi. rewrite parse_Itoa.
  destruct (MaxInt <? z); [discriminate|].
  destruct (z <? MinInt); [discriminate|].
  congruence.
Qed.

Lemma Atoi_Itoa (z : Z) : MinInt <= z <= MaxInt -> Atoi (Itoa z) = (z, None).
Proof.
  intros [Hlo Hhi]. unfold Atoi. rewrite parse_Itoa.
  destruct (Z.ltb_spec MaxInt z); [lia|].
  destruct (Z.ltb_spec z MinInt); [lia|].
  reflexivity.
Qed.

Lemma digit_not_sep (c : ascii) (d : Z) :
  digit c = Some d -> filepath.IsPathSeparator c = false.
Proof.
  intros H. unfold filepath.IsPathSeparator.
  destruct (Ascii.eqb_spec c filepath.Separator) as [->|_]; [discriminate | reflexivity].
Qed.

Lemma digits_no_sep (s : string) :
  forall n v, digits s n = Some v -> filepath.has_sep s = false.
Proof.
  induction s as [|c s IH]; intros n v H; cbn [digits filepath.has_sep] in *.
  - reflexivity.
  - destruct (digit c) as [d|] eqn:Hd; [|discriminate].
    rewrite (digit_not_sep _ _ Hd). exact (IH _ _ H).
Qed.

(** A text that [Atoi] accepts holds no path separator. *)
Lemma Atoi_ok_no_sep (s : string) (n : Z) :
  Atoi s = (n, None) -> filepath.has_sep s = false.
Proof.
  unfold Atoi, parse.
  destruct s as [|c s]; [discriminate|].
  destruct (Ascii.eqb_spec c "-") as [->|Hm];
    [|destruct (Ascii.eqb_spec c "+") as [->|Hp]].
  - destruct s as [|c' s']; [discriminate|].
    destruct (digits (String c' s') 0) as [un|] eqn:Hd; [|discriminate].
    intros _.
    change (orb (filepath.IsPathSeparator "-") (filepath.has_sep (String c' s')) = false).
    rewrite (digits_no_sep _ _ _ Hd). reflexivity.
  - destruct s as [|c' s']; [discriminate|].
    destruct (digits (String c' s') 0) as [un|] eqn:Hd; [|discriminate].
    intros _.
    change (orb (filepath.IsPathSeparator "+") (filepath.has_sep (String c' s')) = false).
    rewrite (digits_no_sep _ _ _ Hd). reflexivity.
  - destruct (digits (String c s) 0) as [un|] eqn:Hd; [|discriminate].
    intros _. exact (digits_no_sep _ _ _ Hd).
Qed.

End Strconv.

(** * The resolution functions *)

(** ** The lookups hand back either a record or an error, never both
    and never neither *)

Lemma LookupId_shape (sys : OS) (uid : string) :
  (exists u, user.LookupId sys uid = (Some u, None)) \/
  (exists e, user.LookupId sys uid = (None, Some e)).
Proof.
  unfold user.LookupId.
  destruct (Atoi uid) as [i [e|]]; [right; eauto|].
  destruct (getpwuid sys i); [left | right | right]; eauto.
Qed.

Lemma LookupGroup_shape (sys : OS) (name : string) :
  (exists grp, getgrnam sys name = Found grp /\
               user.LookupGroup sys name = (Some (user.buildGroup grp), None)) \/
  (exists e, user.LookupGroup sys name = (None, Some e)).
Proof.
  unfold user.LookupGroup.
  destruct (getgrnam sys name); [left | right | right]; eauto.
Qed.

Lemma LookupId_ok_no_sep (sys : OS) (uid : string) (u : user.User) :
  user.LookupId sys uid = (Some u, None) -> filepath.has_sep uid = false.
Proof.
  unfold user.LookupId.
  destruct (Atoi uid) as [i [e|]] eqn:Hatoi; [discriminate|].
  intros _. exact (Atoi_ok_no_sep _ _ Hatoi).
Qed.


(** Unfolds one run of [GetFilesharedLogPath] for a uid other than
    ["0"] whose lookup result is known. *)
Ltac run_log_path uid Hne Hlookup :=
  unfold GetFilesharedLogPath;
  let E := fresh "E" in
  destruct (String.eqb_spec uid "0") as [E|_]; [exfalso; exact (Hne E)|];
  rewrite Hlookup; unfold bind, deref, log_Printf, panic, ret; cbn beta iota.

(** What the function does when the lookup fails: one warning, then
    the read of [usr.HomeDir] through the nil pointer. *)
Lemma log_path_lookup_failure (sys : OS) (uid : string) (e : error) (lines : list string) :
  uid <> "0" ->
  user.LookupId sys uid = (None, Some e) ->
  GetFilesharedLogPath sys uid lines
  = (Panicked nil_dereference, (lines ++ [lookup_warning e])%list).
Proof.
  intros Hne Hlookup. run_log_path uid Hne Hlookup. reflexivity.
Qed.

(** What it does when the lookup succeeds and the configuration
    directory is not resolved. *)
Lemma log_path_config_failure (sys : OS) (uid : string) (u : user.User) (e : error)
      (lines : list string) :
  uid <> "0" ->
  user.LookupId sys uid = (Some u, None) ->
  snd (GetFilesharedConfigDirPath sys (user.HomeDir u)) = Some e ->
  GetFilesharedLogPath sys uid lines
  = (Returned ("/var/log/nordvpn/nordfileshared-" ++ uid ++ ".log"),
     (lines ++ [fallback_warning e])%list).
Proof.
  intros Hne Hlookup Hcfg. run_log_path uid Hne Hlookup.
  destruct (GetFilesharedConfigDirPath sys (user.HomeDir u)) as [dir err].
  cbn [snd] in Hcfg. subst err.
  change (Fileshared ++ "-" ++ uid ++ ".log") with ("nordfileshared-" ++ uid ++ ".log").
  rewrite Join_LogPath.
  - reflexivity.
  - rewrite !has_sep_app, (LookupId_ok_no_sep _ _ _ Hlookup). reflexivity.
  - repeat split; reflexivity.
Qed.

(** And when both succeed. *)
Lemma log_path_config_ok (sys : OS) (uid : string) (u : user.User) (dir : string)
      (lines : list string) :
  uid <> "0" ->
  user.LookupId sys uid = (Some u, None) ->
  GetFilesharedConfigDirPath sys (user.HomeDir u) = (dir, None) ->
  GetFilesharedLogPath sys uid lines
  = (Returned (filepath.Join [dir; "nordfileshared.log"]), lines).
Proof.
  intros Hne Hlookup Hcfg. run_log_path uid Hne Hlookup. rewrite Hcfg. reflexivity.
Qed.

(** ** [GetFilesharedLogPath] *)

(** C1, as the code has it.  The claim is that for every uid other than
    ["0"] the function returns a path, also when the user lookup fails.
    The code returns (a path, with whatever it logged) exactly when the
    lookup succeeds; when the lookup fails it logs the warning that the
    logs will go to the log directory and then panics on the nil user
    record, so no path is returned. *)
Theorem GetFilesharedLogPath_returns_iff_lookup_ok
        (sys : OS) (uid : string) (lines : list string) :
  uid <> "0" ->
  ((exists p lines', GetFilesharedLogPath sys uid lines = (Returned p, lines'))
   <-> snd (user.LookupId sys uid) = None) /\
  (forall e, snd (user.LookupId sys uid) = Some e ->
     GetFilesharedLogPath sys uid lines
     = (Panicked nil_dereference, (lines ++ [lookup_warning e])%list)).
Proof.
  intros Hne.
  destruct (LookupId_shape sys uid) as [[u Hu] | [e He]].
  - split.
    + split; [intros _; now rewrite Hu|]. intros _.
      destruct (GetFilesharedConfigDirPath sys (user.HomeDir u)) as [dir [e|]] eqn:Hcfg.
      * eexists; eexists. apply (log_path_config_failure sys uid u e); auto.
        now rewrite Hcfg.
      * eexists; eexists. apply (log_path_config_ok sys uid u dir); auto.
    + intros e He. rewrite Hu in He. discriminate.
  - split.
    + rewrite (log_path_lookup_failure sys uid e lines Hne He), He.
      split; [intros (p & l & H) | intros H]; discriminate.
    + intros e' He'. rewrite He in He'. cbn [snd] in He'. injection He' as <-.
      now apply log_path_lookup_failure.
Qed.

Lemma GetFilesharedLogPath_returns_iff_lookup_ok_witness :
  GetFilesharedLogPath bare "1000" []
  = (Panicked nil_dereference, [lookup_warning (UnknownUserIdError 1000)]).
Proof.
  apply (proj2 (GetFilesharedLogPath_returns_iff_lookup_ok bare "1000" []
                  ltac:(discriminate))).
  reflexivity.
Defined.

(** C4, as the code has it.  The claim is that a failed user lookup and
    a failed resolution of the configuration directory end in the same
    result, the path [/var/log/nordvpn/nordfileshared-<uid>.log] with a
    warning logged.  The second failure does: the function returns that
    path and logs one warning.  The first does not: the function logs
    its warning and panics, and returns no path. *)
Theorem GetFilesharedLogPath_failure_paths
        (sys : OS) (uid : string) (lines : list string) :
  uid <> "0" ->
  (forall u e,
     user.LookupId sys uid = (Some u, None) ->
     snd (GetFilesharedConfigDirPath sys (user.HomeDir u)) = Some e ->
     GetFilesharedLogPath sys uid lines
     = (Returned ("/var/log/nordvpn/nordfileshared-" ++ uid ++ ".log"),
        (lines ++ [fallback_warning e])%list)) /\
  (forall e,
     user.LookupId sys uid = (None, Some e) ->
     GetFilesharedLogPath sys uid lines
     = (Panicked nil_dereference, (lines ++ [lookup_warning e])%list) /\
     forall lines',
       GetFilesharedLogPath sys uid lines
       <> (Returned ("/var/log/nordvpn/nordfileshared-" ++ uid ++ ".log"), lines')).
Proof.
  intros Hne. split.
  - intros u e Hu Hcfg. now apply (log_path_config_failure sys uid u e).
  - intros e He. rewrite (log_path_lookup_failure sys uid e lines Hne He).
    split; [reflexivity | intros lines'; discriminate].
Qed.

Lemma GetFilesharedLogPath_failure_paths_witness :
  GetFilesharedLogPath desktop "1001" []
  = (Returned "/var/log/nordvpn/nordfileshared-1001.log",
     [fallback_warning errConfigNotFound]) /\
  GetFilesharedLogPath desktop "1002" []
  = (Panicked nil_dereference, [lookup_warning (UnknownUserIdError 1002)]).
Proof.
  split.
  - apply (proj1 (GetFilesharedLogPath_failure_paths desktop "1001" []
                    ltac:(discriminate)) (user.buildUser bob) errConfigNotFound);
      reflexivity.
  - apply (proj2 (GetFilesharedLogPath_failure_paths desktop "1002" []
                    ltac:(discriminate)) (UnknownUserIdError 1002)).
    reflexivity.
Defined.

(** C6.  For the uid ["0"] the result is
    [/var/log/nordvpn/nordfileshared.log] on every machine: nothing is
    looked up, nothing is probed and nothing is logged. *)
Theorem GetFilesharedLogPath_root (sys : OS) (lines : list string) :
  GetFilesharedLogPath sys "0" lines
  = (Returned "/var/log/nordvpn/nordfileshared.log", lines).
Proof.
  reflexivity.
Qed.


(** ** [GetFilesharedSocket] *)

Lemma IsNotExist_Stat (sys : OS) (p : string) :
  os.IsNotExist (os.Stat sys p)
  = match stat_errno sys p with Some ENOENT => true | _ => false end.
Proof.
  unfold os.Stat. destruct (stat_errno sys p) as [[]|]; reflexivity.
Qed.

Lemma user_socket_not_system (uid : Z) : user_socket uid <> system_socket.
Proof.
  discriminate.
Qed.

Lemma GetFilesharedSocket_nonzero (sys : OS) (uid : Z) :
  uid <> 0%Z ->
  GetFilesharedSocket sys uid
  = match stat_errno sys (runtime_dir uid) with
    | Some ENOENT => system_socket
    | _ => user_socket uid
    end.
Proof.
  intros Hne. unfold GetFilesharedSocket.
  rewrite IsNotExist_Stat.
  destruct (Z.eqb_spec uid 0) as [E|_]; [contradiction|].
  destruct (stat_errno sys (runtime_dir uid)) as [[]|]; reflexivity.
Qed.

(** C2, as stated, fails: on the machine where every [stat] is refused
    with a permission error, uid 1000 gets the per-user socket path,
    not the system-wide one. *)
Lemma GetFilesharedSocket_permission_error_counterexample :
  1000%Z <> 0%Z /\
  stat_errno locked "/run/user/1000" = Some EACCES /\
  GetFilesharedSocket locked 1000 = "/run/user/1000/nordfileshared/nordfileshared.sock" /\
  GetFilesharedSocket locked 1000 <> "/run/nordfileshared/nordfileshared.sock".
Proof.
  repeat split; try reflexivity; discriminate.
Qed.

(** C2, amended.  For a uid other than 0, a [stat] error on
    [/run/user/<uid>] is never propagated (the function has only a path
    to return), and which path it returns depends on the error: the
    system-wide socket path for "not found", the per-user socket path
    for every other error (a permission error for one), which is what
    it also returns when the directory is there. *)
Theorem GetFilesharedSocket_stat_error (sys : OS) (uid : Z) (e : Errno) :
  uid <> 0%Z ->
  stat_errno sys ("/run/user/" ++ strconv.Itoa uid) = Some e ->
  GetFilesharedSocket sys uid
  = match e with
    | ENOENT => "/run/nordfileshared/nordfileshared.sock"
    | _ => "/run/user/" ++ strconv.Itoa uid ++ "/nordfileshared/nordfileshared.sock"
    end.
Proof.
  intros Hne Hstat.
  rewrite (GetFilesharedSocket_nonzero sys uid Hne).
  change (runtime_dir uid) with ("/run/user/" ++ strconv.Itoa uid).
  rewrite Hstat. destruct e; reflexivity.
Qed.

Lemma GetFilesharedSocket_stat_error_witness :
  GetFilesharedSocket bare 1001 = "/run/nordfileshared/nordfileshared.sock" /\
  GetFilesharedSocket locked 1001 = "/run/user/1001/nordfileshared/nordfileshared.sock".
Proof.
  split.
  - apply (GetFilesharedSocket_stat_error bare 1001 ENOENT); [discriminate | reflexivity].
  - apply (GetFilesharedSocket_stat_error locked 1001 EACCES); [discriminate | reflexivity].
Defined.

(** C3, as stated, fails in its "only if": on the machine where
    [/run/user] is a regular file, [/run/user/1000] does not exist
    ([stat] answers "not a directory") and uid 1000 still gets the
    per-user socket path. *)
Lemma GetFilesharedSocket_exists_counterexample :
  fs_consistent flat /\
  (0 < 1000)%Z /\
  entry_exists flat "/run/user/1000" = false /\
  GetFilesharedSocket flat 1000 = "/run/user/1000/nordfileshared/nordfileshared.sock" /\
  GetFilesharedSocket flat 1000 <> "/run/nordfileshared/nordfileshared.sock".
Proof.
  split; [|repeat split; try reflexivity; discriminate].
  intros p. unfold flat. cbn [stat_errno entry_exists].
  destruct (String.eqb p "/run/user"); [split; [reflexivity | discriminate]|].
  split; [|reflexivity].
  destruct (prefix "/run/user/" p); discriminate.
Qed.

(** C3, amended.  For uid 0 the function returns the system-wide
    socket path whatever [stat] answers.  For a uid above 0 it returns
    the per-user socket path if and only if [stat] of [/run/user/<uid>]
    does not report "not found", and the system-wide path when it does.
    So when [stat] gives a definite answer (it succeeds or reports "not
    found"), the per-user path is returned if and only if the directory
    exists. *)
Theorem GetFilesharedSocket_cases (sys : OS) (uid : Z) :
  GetFilesharedSocket sys 0 = "/run/nordfileshared/nordfileshared.sock" /\
  ((0 < uid)%Z ->
   (GetFilesharedSocket sys uid
      = "/run/user/" ++ strconv.Itoa uid ++ "/nordfileshared/nordfileshared.sock"
    <-> stat_errno sys ("/run/user/" ++ strconv.Itoa uid) <> Some ENOENT) /\
   (stat_errno sys ("/run/user/" ++ strconv.Itoa uid) = Some ENOENT ->
    GetFilesharedSocket sys uid = "/run/nordfileshared/nordfileshared.sock")) /\
  ((0 < uid)%Z ->
   fs_consistent sys ->
   stat_errno sys ("/run/user/" ++ strconv.Itoa uid) = None \/
   stat_errno sys ("/run/user/" ++ strconv.Itoa uid) = Some ENOENT ->
   (GetFilesharedSocket sys uid
      = "/run/user/" ++ strconv.Itoa uid ++ "/nordfileshared/nordfileshared.sock"
    <-> entry_exists sys ("/run/user/" ++ strconv.Itoa uid) = true) /\
   (entry_exists sys ("/run/user/" ++ strconv.Itoa uid) = false ->
    GetFilesharedSocket sys uid = "/run/nordfileshared/nordfileshared.sock")).
Proof.
  change ("/run/user/" ++ strconv.Itoa uid ++ "/nordfileshared/nordfileshared.sock")
    with (user_socket uid).
  change ("/run/user/" ++ strconv.Itoa uid) with (runtime_dir uid).
  change "/run/nordfileshared/nordfileshared.sock" with system_socket.
  pose proof (user_socket_not_system uid) as Hdiff.
  split; [reflexivity | split].
  - intros Hpos.
    rewrite (GetFilesharedSocket_nonzero sys uid) by lia.
    destruct (stat_errno sys (runtime_dir uid)) as [[]|];
      (split; [split; intros H; congruence | intros H; congruence]).
  - intros Hpos Hfs Hdef.
    rewrite (GetFilesharedSocket_nonzero sys uid) by lia.
    destruct (Hfs (runtime_dir uid)) as [Hok Habsent].
    destruct Hdef as [Hs | Hs]; rewrite Hs in *.
    + rewrite (Hok eq_refl).
      split; [split; reflexivity | discriminate].
    + rewrite (Habsent eq_refl).
      split; [split; intros H; [symmetry in H; contradiction | discriminate]
             | reflexivity].
Qed.

Lemma GetFilesharedSocket_cases_witness :
  GetFilesharedSocket desktop 1000 = "/run/user/1000/nordfileshared/nordfileshared.sock" /\
  GetFilesharedSocket desktop 1001 = "/run/nordfileshared/nordfileshared.sock".
Proof.
  assert (Hfs : fs_consistent desktop).
  { intros p. unfold desktop. cbn [stat_errno entry_exists].
    destruct (existsb (String.eqb p) desktop_files); split; congruence. }
  split.
  - apply (proj2 (proj2 (GetFilesharedSocket_cases desktop 1000))
             eq_refl Hfs (or_introl eq_refl)).
    reflexivity.
  - apply (proj2 (proj2 (GetFilesharedSocket_cases desktop 1001))
             eq_refl Hfs (or_intror eq_refl)).
    reflexivity.
Defined.

(** ** [GetFilesharedConfigDirPath] *)

Lemma config_dir_nonempty (sys : OS) (home : string) :
  home <> "" ->
  GetFilesharedConfigDirPath sys home
  = match stat_errno sys (filepath.Join [home; ".config"; "nordvpn/"]) with
    | None => (filepath.Join [home; ".config"; "nordvpn/"], None)
    | Some _ => ("", Some errConfigNotFound)
    end.
Proof.
  intros Hne. unfold GetFilesharedConfigDirPath, os.Stat.
  destruct (String.eqb_spec home "") as [E|_]; [contradiction|].
  change [home; ConfigDirectory; UserDataPath] with [home; ".config"; "nordvpn/"].
  destruct (stat_errno sys (filepath.Join [home; ".config"; "nordvpn/"]));
    reflexivity.
Qed.

(** C5, as stated, fails: where every path exists, also
    [/home/alice/.config/nordvpn/], the directory returned for the home
    directory [/home/alice] is [/home/alice/.config/nordvpn], without
    the separator at the end. *)
Lemma GetFilesharedConfigDirPath_trailing_separator_counterexample :
  entry_exists roomy "/home/alice/.config/nordvpn/" = true /\
  GetFilesharedConfigDirPath roomy "/home/alice" = ("/home/alice/.config/nordvpn", None) /\
  GetFilesharedConfigDirPath roomy "/home/alice" <> ("/home/alice/.config/nordvpn/", None).
Proof.
  repeat split; discriminate.
Qed.

(** C5, amended.  The empty string is refused with the "no home
    directory" error.  For a non-empty home directory the candidate is
    [filepath.Join(home, ".config", "nordvpn/")], which for a home
    directory in cleaned form (other than [/] and [.]) is exactly
    [<home>/.config/nordvpn], with no separator at the end; the
    candidate is returned when [stat] succeeds on it and the "not
    found" error is returned otherwise.  A path returned with a nil
    error is one on which [stat] succeeded, that is, one that exists. *)
Theorem GetFilesharedConfigDirPath_cases (sys : OS) (home : string) :
  GetFilesharedConfigDirPath sys "" = ("", Some errNoHome) /\
  (home <> "" ->
   (stat_errno sys (filepath.Join [home; ".config"; "nordvpn/"]) = None ->
    GetFilesharedConfigDirPath sys home
    = (filepath.Join [home; ".config"; "nordvpn/"], None)) /\
   (stat_errno sys (filepath.Join [home; ".config"; "nordvpn/"]) <> None ->
    GetFilesharedConfigDirPath sys home = ("", Some errConfigNotFound))) /\
  (home <> "" -> filepath.Clean home = home -> home <> "/" -> home <> "." ->
   filepath.Join [home; ".config"; "nordvpn/"] = home ++ "/.config/nordvpn") /\
  (forall p,
     GetFilesharedConfigDirPath sys home = (p, None) ->
     stat_errno sys p = None /\ (fs_consistent sys -> entry_exists sys p = true)).
Proof.
  split; [reflexivity|]. split; [|split].
  - intros Hne. rewrite (config_dir_nonempty sys home Hne).
    destruct (stat_errno sys (filepath.Join [home; ".config"; "nordvpn/"]));
      split; intros H; congruence.
  - intros Hne Hclean Hroot Hdot. now apply Join_config_clean.
  - intros p Hret.
    assert (Hstat : stat_errno sys p = None).
    { destruct (String.eqb_spec home "") as [->|Hne]; [discriminate|].
      rewrite (config_dir_nonempty sys home Hne) in Hret.
      destruct (stat_errno sys (filepath.Join [home; ".config"; "nordvpn/"])) eqn:Hs;
        [discriminate|].
      injection Hret as <-. exact Hs. }
    split; [exact Hstat|]. intros Hfs. now apply (Hfs p).
Qed.

Lemma GetFilesharedConfigDirPath_cases_witness :
  GetFilesharedConfigDirPath desktop "/home/alice" = ("/home/alice/.config/nordvpn", None) /\
  GetFilesharedConfigDirPath desktop "/home/bob" = ("", Some errConfigNotFound) /\
  filepath.Join ["/home/alice"; ".config"; "nordvpn/"] = "/home/alice/.config/nordvpn" /\
  stat_errno desktop "/home/alice/.config/nordvpn" = None.
Proof.
  pose proof (GetFilesharedConfigDirPath_cases desktop "/home/alice")
    as (_ & Hprobe & Hshape & Hver).
  pose proof (GetFilesharedConfigDirPath_cases desktop "/home/bob")
    as (_ & Hprobe' & _).
  split; [|split; [|split]].
  - apply (proj1 (Hprobe ltac:(discriminate))). reflexivity.
  - apply (proj2 (Hprobe' ltac:(discriminate))). discriminate.
  - apply Hshape; [discriminate | reflexivity | discriminate | discriminate].
  - apply (Hver "/home/alice/.config/nordvpn"). reflexivity.
Defined.

(** C10.  For a non-empty home directory, every [stat] error on the
    candidate path, whatever its kind, produces the "directory not
    found" error, and a nil error is returned only when [stat]
    succeeded on the candidate. *)
Theorem GetFilesharedConfigDirPath_any_stat_error (sys : OS) (home : string) :
  home <> "" ->
  (forall e,
     stat_errno sys (filepath.Join [home; ConfigDirectory; UserDataPath]) = Some e ->
     GetFilesharedConfigDirPath sys home
     = ("", Some (errorString ".config directory not found in users home directory"))) /\
  (forall p,
     GetFilesharedConfigDirPath sys home = (p, None) ->
     stat_errno sys (filepath.Join [home; ConfigDirectory; UserDataPath]) = None).
Proof.
  intros Hne. rewrite (config_dir_nonempty sys home Hne).
  change [home; ConfigDirectory; UserDataPath] with [home; ".config"; "nordvpn/"].
  destruct (stat_errno sys (filepath.Join [home; ".config"; "nordvpn/"])).
  - split; [reflexivity | discriminate].
  - split; [discriminate | reflexivity].
Qed.

Lemma GetFilesharedConfigDirPath_any_stat_error_witness :
  GetFilesharedConfigDirPath locked "/home/alice"
  = ("", Some (errorString ".config directory not found in users home directory")).
Proof.
  apply (proj1 (GetFilesharedConfigDirPath_any_stat_error locked "/home/alice"
                  ltac:(discriminate)) EACCES).
  reflexivity.
Defined.

(** ** [GetNordvpnGid] *)

(** C7.  When the group database has no [nordvpn] group the function
    returns the "unknown group" error.  It never panics, and whenever
    the error it returns is nil the group is in the database and the
    number returned is that group's id; a group id that fits an [int]
    is always returned that way. *)
Theorem GetNordvpnGid_spec (sys : OS) (lines : list string) :
  (getgrnam sys "nordvpn" = Missing ->
   GetNordvpnGid sys lines
   = (Returned (0%Z, Some (UnknownGroupError "nordvpn")), lines)) /\
  (exists r, GetNordvpnGid sys lines = (Returned r, lines)) /\
  (forall n lines',
     GetNordvpnGid sys lines = (Returned (n, None), lines') ->
     exists grp, getgrnam sys "nordvpn" = Found grp /\ gr_gid grp = n) /\
  (forall grp,
     getgrnam sys "nordvpn" = Found grp ->
     (strconv.MinInt <= gr_gid grp <= strconv.MaxInt)%Z ->
     GetNordvpnGid sys lines = (Returned (gr_gid grp, None), lines)).
Proof.
  unfold GetNordvpnGid, user.LookupGroup.
  change NordvpnGroup with "nordvpn".
  destruct (getgrnam sys "nordvpn") as [grp| |e];
    unfold bind, deref, ret; cbn beta iota.
  - split; [discriminate|]. split; [eauto|]. split.
    + intros n lines' H. exists grp. split; [reflexivity|].
      injection H as H _. symmetry. exact (Atoi_Itoa_ok _ _ H).
    + intros grp' Hgrp Hrange. injection Hgrp as <-.
      cbn [user.buildGroup user.GroupGid].
      now rewrite Atoi_Itoa.
  - split; [reflexivity|]. split; [eauto|]. split; [|discriminate].
    intros n lines' H. discriminate.
  - split; [discriminate|]. split; [eauto|]. split; [|discriminate].
    intros n lines' H. discriminate.
Qed.

Lemma GetNordvpnGid_spec_witness :
  GetNordvpnGid bare [] = (Returned (0%Z, Some (UnknownGroupError "nordvpn")), []) /\
  GetNordvpnGid desktop [] = (Returned (998%Z, None), []) /\
  exists grp, getgrnam desktop "nordvpn" = Found grp /\ gr_gid grp = 998%Z.
Proof.
  split; [|split].
  - apply (proj1 (GetNordvpnGid_spec bare [])). reflexivity.
  - apply (proj2 (proj2 (proj2 (GetNordvpnGid_spec desktop []))) nordvpn_group).
    + reflexivity.
    + split; discriminate.
  - apply (proj1 (proj2 (proj2 (GetNordvpnGid_spec desktop []))) 998%Z []).
    reflexivity.
Defined.

(** ** [GetSupportedIPTables] *)

(** C8, as stated, fails: with the IPv4 variable off and the IPv6
    variable on, the result is [ip6tables] alone. *)
Lemma GetSupportedIPTables_ipv4_off_counterexample :
  GetSupportedIPTables (mkPlatform false true) = ["ip6tables"] /\
  ~ In "iptables" (GetSupportedIPTables (mkPlatform false true)).
Proof.
  split; [reflexivity|].
  intros [H | []]. discriminate.
Qed.

(** C8, amended.  [iptables] is in the result exactly when the IPv4
    variable is on (as it is when the package is initialised) and
    [ip6tables] exactly when the IPv6 variable is on; the result is
    [iptables] (if present) followed by [ip6tables] (if present), so
    [iptables] comes first when both are there. *)
Theorem GetSupportedIPTables_cases (vars : Platform) :
  GetSupportedIPTables vars
  = ((if PlatformSupportsIPv4 vars then ["iptables"] else []) ++
     (if PlatformSupportsIPv6 vars then ["ip6tables"] else []))%list /\
  (In "iptables" (GetSupportedIPTables vars) <-> PlatformSupportsIPv4 vars = true) /\
  (In "ip6tables" (GetSupportedIPTables vars) <-> PlatformSupportsIPv6 vars = true) /\
  (PlatformSupportsIPv4 vars = true -> PlatformSupportsIPv6 vars = true ->
   GetSupportedIPTables vars = ["iptables"; "ip6tables"]) /\
  PlatformSupportsIPv4 initial_platform = true.
Proof.
  destruct vars as [[] []]; cbn;
    repeat split; intros; try reflexivity; try discriminate;
    repeat match goal with
      | H : _ \/ _ |- _ => destruct H
      | H : False |- _ => destruct H
      end; try discriminate; auto.
Qed.

Lemma GetSupportedIPTables_cases_witness :
  GetSupportedIPTables initial_platform = ["iptables"; "ip6tables"].
Proof.
  apply (proj1 (proj2 (proj2 (proj2 (GetSupportedIPTables_cases initial_platform)))));
    reflexivity.
Defined.

(** ** Determinism *)



Lemma same_Stat (s1 s2 : OS) (p : string) :
  same_observable s1 s2 -> os.Stat s1 p = os.Stat s2 p.
Proof.
  intros (Hstat & _). unfold os.Stat. now rewrite Hstat.
Qed.

Lemma same_LookupId (s1 s2 : OS) (uid : string) :
  same_observable s1 s2 -> user.LookupId s1 uid = user.LookupId s2 uid.
Proof.
  intros (_ & Hpw & _). unfold user.LookupId.
  destruct (Atoi uid) as [i [e|]]; [reflexivity | now rewrite Hpw].
Qed.

Lemma same_config_dir (s1 s2 : OS) (home : string) :
  same_observable s1 s2 ->
  GetFilesharedConfigDirPath s1 home = GetFilesharedConfigDirPath s2 home.
Proof.
  intros Hsame. unfold GetFilesharedConfigDirPath.
  now rewrite (same_Stat s1 s2 _ Hsame).
Qed.

(** *** The process between two calls *)

Lemma same_lookupUserId (s1 s2 : OS) (uid : string) :
  same_observable s1 s2 ->
  process.lookupUserId s1 uid = process.lookupUserId s2 uid.
Proof.
  intros (_ & Hpw & _). unfold process.lookupUserId, process.lookupUnixUid.
  destruct (Atoi uid) as [i [e|]]; [reflexivity | now rewrite Hpw].
Qed.

Lemma same_lookup_with (s1 s2 : OS) (c : option user.User * option error)
      (uid : string) :
  same_observable s1 s2 -> lookup_with c s1 uid = lookup_with c s2 uid.
Proof.
  intros Hsame. unfold lookup_with.
  now rewrite (same_lookupUserId s1 s2 uid Hsame).
Qed.

Lemma same_after_lookup (s1 s2 : OS) (uid : string)
      (r : option user.User * option error) :
  same_observable s1 s2 -> after_lookup s1 uid r = after_lookup s2 uid r.
Proof.
  intros Hsame. unfold after_lookup. destruct r as [[u|] err]; [|reflexivity].
  now rewrite (same_config_dir s1 s2 _ Hsame).
Qed.

(** One lookup: the answer comes from the cache as filled, and the
    cache is filled afterwards. *)
Lemma process_LookupId_run (sys : OS) (uid : string) (p : Process) :
  process.LookupId sys uid p
  = (lookup_with (filled sys p) sys uid,
     mkProcess (proc_uid p) (Some (filled sys p)) (logged p)).
Proof.
  destruct p as [me cache lines].
  unfold process.LookupId, process.Current, process.cache_Do, process.bind,
    process.deref, process.ret, filled, lookup_with.
  cbn [current_cache proc_uid logged].
  destruct cache as [[[u|] [e|]]|]; cbn [fst snd];
    try (destruct (String.eqb (user.Uid u) uid)); try reflexivity.
  destruct (process.lookupUnixUid sys me) as [[u|] [e|]]; cbn [fst snd];
    try (destruct (String.eqb (user.Uid u) uid)); reflexivity.
Qed.

(** One call of [GetFilesharedLogPath] for a uid other than ["0"]. *)
Lemma process_log_path_run (sys : OS) (uid : string) (p : Process) :
  uid <> "0" ->
  process.GetFilesharedLogPath sys uid p
  = match lookup_with (filled sys p) sys uid with
    | Returned r =>
        (fst (after_lookup sys uid r),
         mkProcess (proc_uid p) (Some (filled sys p))
                   (logged p ++ snd (after_lookup sys uid r))%list)
    | Panicked msg =>
        (Panicked msg, mkProcess (proc_uid p) (Some (filled sys p)) (logged p))
    end.
Proof.
  intros Hne. unfold process.GetFilesharedLogPath.
  destruct (String.eqb_spec uid "0") as [E|_]; [contradiction|].
  unfold process.bind at 1. rewrite process_LookupId_run.
  destruct (lookup_with (filled sys p) sys uid) as [[[u|] err]|msg];
    [| |reflexivity].
  - unfold after_lookup.
    destruct err as [e|];
      unfold process.bind, process.deref, process.Printf, process.ret, log_Printf,
        lookup_warning, fallback_warning;
      cbn [logged proc_uid current_cache fst snd];
      destruct (GetFilesharedConfigDirPath sys (user.HomeDir u)) as [dir [e'|]];
      cbn [logged proc_uid current_cache fst snd app];
      rewrite ?app_nil_r, <- ?app_assoc; reflexivity.
  - destruct err as [e|];
      unfold after_lookup, process.bind, process.deref, process.Printf, process.ret,
        log_Printf, lookup_warning;
      cbn [logged proc_uid current_cache fst snd];
      rewrite ?app_nil_r; reflexivity.
Qed.

(** The function of the earlier sections is this one with the lookup
    done straight in the user database. *)
Lemma log_path_after_lookup (sys : OS) (uid : string) (lines : list string) :
  uid <> "0" ->
  GetFilesharedLogPath sys uid lines
  = (fst (after_lookup sys uid (user.LookupId sys uid)),
     (lines ++ snd (after_lookup sys uid (user.LookupId sys uid)))%list).
Proof.
  intros Hne. unfold GetFilesharedLogPath.
  destruct (String.eqb_spec uid "0") as [E|_]; [contradiction|].
  destruct (user.LookupId sys uid) as [[u|] [e|]];
    unfold after_lookup, bind, deref, log_Printf, panic, ret,
      lookup_warning, fallback_warning;
    cbn [fst snd]; rewrite ?app_nil_r; try reflexivity;
    destruct (GetFilesharedConfigDirPath sys (user.HomeDir u)) as [dir [e'|]];
    cbn [fst snd]; rewrite ?app_nil_r, <- ?app_assoc; reflexivity.
Qed.

(** With a cache that holds what the user database says about the
    process, the shortcut of [user.LookupId] answers as the database
    does. *)
Lemma lookup_with_fresh (sys : OS) (me : Z) (uid : string) :
  passwd_consistent sys ->
  (strconv.MinInt <= me <= strconv.MaxInt)%Z ->
  lookup_with (process.lookupUnixUid sys me) sys uid
  = Returned (user.LookupId sys uid).
Proof.
  intros Hcons Hrange.
  change (user.LookupId sys uid) with (process.lookupUserId sys uid).
  unfold lookup_with, process.lookupUnixUid at 1.
  destruct (getpwuid sys me) as [pwd| |e] eqn:Hpw; try reflexivity.
  cbn [user.buildUser user.Uid].
  destruct (String.eqb_spec (strconv.Itoa (pw_uid pwd)) uid) as [<-|_]; [|reflexivity].
  rewrite (Hcons me pwd Hpw).
  unfold process.lookupUserId. rewrite (Atoi_Itoa me Hrange).
  unfold process.lookupUnixUid. now rewrite Hpw.
Qed.

(** So on a process whose cache is empty or holds what the database
    says, [GetFilesharedLogPath] returns and logs what the function of
    the earlier sections does. *)
Lemma process_agrees_when_fresh (sys : OS) (uid : string) (p : Process) :
  passwd_consistent sys ->
  (strconv.MinInt <= proc_uid p <= strconv.MaxInt)%Z ->
  current_cache p = None \/
  current_cache p = Some (process.lookupUnixUid sys (proc_uid p)) ->
  fst (process.GetFilesharedLogPath sys uid p)
  = fst (GetFilesharedLogPath sys uid (logged p)) /\
  logged (snd (process.GetFilesharedLogPath sys uid p))
  = snd (GetFilesharedLogPath sys uid (logged p)).
Proof.
  intros Hcons Hrange Hcache.
  destruct (String.eqb_spec uid "0") as [->|Hne]; [split; reflexivity|].
  rewrite (process_log_path_run sys uid p Hne), (log_path_after_lookup sys uid _ Hne).
  assert (Hfilled : filled sys p = process.lookupUnixUid sys (proc_uid p))
    by (unfold filled; destruct Hcache as [-> | ->]; reflexivity).
  rewrite Hfilled, (lookup_with_fresh sys _ uid Hcons Hrange).
  split; reflexivity.
Qed.

(** C9.  Called twice with the same arguments in machine states that
    show the same, each resolution function gives the same result
    twice.  [GetFilesharedSocket] and [GetFilesharedConfigDirPath]
    reach nothing but [stat]: the result is decided by, and decides,
    what [stat] answers on the one path probed.
    [GetFilesharedLogPath] also reaches the process: its first call may
    fill the cache of [user.Current] and add a line to the log; the
    second call, run on the process the first one left, on whatever
    the cache held before, has the same outcome and adds the same
    line.  [GetNordvpnGid] leaves the process as it was. *)
Theorem resolution_deterministic (s1 s2 : OS) (p : Process) :
  (forall uid,
     uid <> 0%Z ->
     (GetFilesharedSocket s1 uid = GetFilesharedSocket s2 uid <->
      os.IsNotExist (os.Stat s1 (runtime_dir uid))
      = os.IsNotExist (os.Stat s2 (runtime_dir uid)))) /\
  (forall home,
     home <> "" ->
     (GetFilesharedConfigDirPath s1 home = GetFilesharedConfigDirPath s2 home <->
      (stat_errno s1 (filepath.Join [home; ConfigDirectory; UserDataPath]) = None <->
       stat_errno s2 (filepath.Join [home; ConfigDirectory; UserDataPath]) = None))) /\
  (same_observable s1 s2 ->
   (forall uid, GetFilesharedSocket s1 uid = GetFilesharedSocket s2 uid) /\
   (forall home,
      GetFilesharedConfigDirPath s1 home = GetFilesharedConfigDirPath s2 home) /\
   (forall uid,
      let first := process.GetFilesharedLogPath s1 uid p in
      let second := process.GetFilesharedLogPath s2 uid (snd first) in
      fst first = fst second /\
      exists added,
        logged (snd first) = (logged p ++ added)%list /\
        logged (snd second) = (logged (snd first) ++ added)%list) /\
   (let first := process.GetNordvpnGid s1 p in
    let second := process.GetNordvpnGid s2 (snd first) in
    fst first = fst second /\ snd first = p /\ snd second = p)).
Proof.
  split; [|split].
  - intros uid Hne. rewrite !GetFilesharedSocket_nonzero, !IsNotExist_Stat by assumption.
    pose proof (user_socket_not_system uid) as Hdiff.
    destruct (stat_errno s1 (runtime_dir uid)) as [[]|];
      destruct (stat_errno s2 (runtime_dir uid)) as [[]|];
      split; intros H; try reflexivity; try discriminate; congruence.
  - intros home Hne. rewrite !config_dir_nonempty by assumption.
    change [home; ConfigDirectory; UserDataPath] with [home; ".config"; "nordvpn/"].
    destruct (stat_errno s1 (filepath.Join [home; ".config"; "nordvpn/"])) as [e1|];
      destruct (stat_errno s2 (filepath.Join [home; ".config"; "nordvpn/"])) as [e2|];
      split; intros H; try reflexivity; try discriminate;
      try (split; intros; congruence);
      destruct H as [H1 H2]; first [specialize (H1 eq_refl) | specialize (H2 eq_refl)];
      discriminate.
  - intros Hsame. split; [|split; [|split]].
    + intros uid. unfold GetFilesharedSocket. now rewrite (same_Stat s1 s2 _ Hsame).
    + intros home. now apply same_config_dir.
    + intros uid. cbv zeta.
      destruct (String.eqb_spec uid "0") as [->|Hne].
      * split; [reflexivity|]. exists []. cbn. now rewrite app_nil_r.
      * rewrite (process_log_path_run s1 uid p Hne).
        set (c := filled s1 p).
        assert (Hnext : forall lines,
                   filled s2 (mkProcess (proc_uid p) (Some c) lines) = c)
          by reflexivity.
        rewrite (same_lookup_with s1 s2 c uid Hsame).
        destruct (lookup_with c s2 uid) as [r|msg] eqn:Hlookup; cbn [fst snd];
          rewrite (process_log_path_run s2 uid _ Hne), Hnext; cbn [proc_uid logged];
          rewrite Hlookup; cbn [fst snd logged].
        -- rewrite (same_after_lookup s1 s2 uid r Hsame).
           split; [reflexivity|]. now exists (snd (after_lookup s2 uid r)).
        -- split; [reflexivity|]. exists []. now rewrite app_nil_r.
    + cbv zeta. unfold process.GetNordvpnGid, user.LookupGroup.
      destruct Hsame as (_ & _ & Hgr). rewrite Hgr.
      destruct (getgrnam s2 NordvpnGroup); cbn; repeat split; reflexivity.
Qed.

Lemma resolution_deterministic_witness :
  process.GetFilesharedLogPath desktop "1000" fresh_process
  = (Returned "/home/alice/.config/nordvpn/nordfileshared.log",
     mkProcess 1000 (Some (Some (user.buildUser alice), None)) []) /\
  fst (process.GetFilesharedLogPath desktop "1000" fresh_process)
  = fst (process.GetFilesharedLogPath desktop_again "1000"
           (snd (process.GetFilesharedLogPath desktop "1000" fresh_process))) /\
  GetFilesharedSocket desktop 1000 = GetFilesharedSocket desktop_again 1000 /\
  GetFilesharedSocket desktop 1000 <> GetFilesharedSocket desktop_emptied 1000.
Proof.
  assert (Hsame : same_observable desktop desktop_again).
  { split; [|split].
    - intros q. unfold desktop, desktop_again. cbn [stat_errno].
      destruct (existsb (String.eqb q) desktop_files); reflexivity.
    - intros uid. unfold desktop, desktop_again. cbn [getpwuid].
      destruct (Z.eqb_spec uid 1000) as [->|]; [reflexivity|].
      destruct (Z.eqb uid 1001); reflexivity.
    - intros name. unfold desktop, desktop_again. cbn [getgrnam].
      rewrite (String.eqb_sym name "nordvpn"). reflexivity. }
  pose proof (resolution_deterministic desktop desktop_again fresh_process)
    as (_ & _ & Hdet).
  destruct (Hdet Hsame) as (Hsock & _ & Hlog & _).
  pose proof (resolution_deterministic desktop desktop_emptied fresh_process)
    as (Hreads & _).
  split; [reflexivity|]. split; [apply (Hlog "1000")|]. split; [apply Hsock|].
  intros Heq. apply (proj1 (Hreads 1000%Z ltac:(discriminate))) in Heq. discriminate.
Defined.

(** * Further properties *)

(** ** The buffer of [filepath.Clean] *)

Section CleanBuffer.

Import filepath.

Lemma elements_all_no_sep (p : string) :
  Forall (fun e => has_sep e = false) (elements p).
Proof.
  induction p as [|c p IH]; cbn [elements].
  - repeat constructor.
  - destruct (IsPathSeparator c) eqn:Hc.
    + constructor; [reflexivity | exact IH].
    + destruct (elements p) as [|e es]; [repeat constructor; cbn; now rewrite Hc|].
      inversion IH as [|? ? He Hes]; subst.
      constructor; [cbn; now rewrite Hc, He | exact Hes].
Qed.

Lemma buf_ok_init (r : bool) : buf_ok r (mkbuf [] 0).
Proof.
  exists []. repeat split; constructor.
Qed.

Lemma clean_step_ok (r : bool) (b : lazybuf) (e : string) :
  has_sep e = false -> buf_ok r b -> buf_ok r (clean_step r b e).
Proof.
  intros Hsep (names & Hout & Hnames & Hroot). unfold clean_step.
  destruct (String.eqb e "") eqn:H0; [now exists names|].
  destruct (String.eqb e ".") eqn:H1; [now exists names|].
  destruct (String.eqb e "..") eqn:H2.
  - assert (Hlen : Datatypes.length (out b) = Datatypes.length names + dotdot b)
      by (rewrite Hout, length_app, repeat_length; reflexivity).
    destruct (Nat.ltb_spec (dotdot b) (Datatypes.length (out b))) as [Hlt|Hge].
    + destruct names as [|x names]; [cbn in Hlen; lia|].
      exists names. cbn [out dotdot]. rewrite Hout. cbn [tl app].
      inversion Hnames; subst. auto.
    + destruct names as [|x names]; [|cbn in Hlen; lia].
      destruct r; cbn [negb].
      * exists []. auto.
      * exists []. cbn [out dotdot app]. rewrite Hlen. cbn [Datatypes.length Nat.add].
        rewrite Hout. cbn [app repeat].
        repeat split; [constructor | discriminate].
  - exists (e :: names). cbn [out dotdot]. rewrite Hout.
    repeat split; [|exact Hroot].
    constructor; [|exact Hnames]. repeat split; assumption.
Qed.

Lemma fold_clean_ok (r : bool) (l : list string) :
  Forall (fun e => has_sep e = false) l ->
  forall b, buf_ok r b -> buf_ok r (fold_left (clean_step r) l b).
Proof.
  induction 1 as [|e l He Hl IH]; intros b Hb; cbn [fold_left]; [exact Hb|].
  apply IH. now apply clean_step_ok.
Qed.

Lemma clean_buf_ok (path : string) : buf_ok (rooted path) (clean_buf path).
Proof.
  apply fold_clean_ok; [apply elements_all_no_sep | apply buf_ok_init].
Qed.

Lemma Clean_nonempty (path : string) :
  path <> "" -> Clean path = render (rooted path) (clean_buf path).
Proof.
  intros Hne. unfold Clean.
  destruct (String.eqb_spec path ""); [contradiction | reflexivity].
Qed.

Lemma elements_Join (l : list string) :
  l <> [] ->
  Forall (fun e => has_sep e = false) l ->
  elements (strings.Join l "/") = l.
Proof.
  induction l as [|x l IH]; intros Hne Hall; [congruence|].
  inversion Hall as [|? ? Hx Hl]; subst.
  destruct l as [|y l].
  - now apply elements_no_sep.
  - change (strings.Join (x :: y :: l) "/")
      with (x ++ String Separator (strings.Join (y :: l) "/")).
    rewrite elements_app_sep, (elements_no_sep x Hx), IH by (discriminate || assumption).
    reflexivity.
Qed.

Lemma fold_clean_names (r : bool) (l : list string) :
  Forall real_element l ->
  forall b, fold_left (clean_step r) l b = mkbuf (rev l ++ out b) (dotdot b).
Proof.
  induction 1 as [|e l He Hl IH]; intros b; cbn [fold_left rev].
  - now destruct b.
  - rewrite (clean_step_real r b e He), IH. cbn [out dotdot].
    now rewrite <- app_assoc.
Qed.

Lemma fold_clean_dotdots (d : nat) :
  forall k,
    fold_left (clean_step false) (repeat ".." d) (mkbuf (repeat ".." k) k)
    = mkbuf (repeat ".." (d + k)) (d + k).
Proof.
  induction d as [|d IH]; intros k; cbn [repeat fold_left]; [reflexivity|].
  replace (clean_step false (mkbuf (repeat ".." k) k) "..")
    with (mkbuf (repeat ".." (S k)) (S k)).
  - rewrite IH. now rewrite Nat.add_succ_r.
  - unfold clean_step. cbn [String.eqb Ascii.eqb Bool.eqb out dotdot negb].
    rewrite repeat_length, Nat.ltb_irrefl. reflexivity.
Qed.

(** Running the loop on the elements a buffer holds rebuilds it. *)
Lemma fold_clean_rev_out (r : bool) (b : lazybuf) :
  buf_ok r b -> fold_left (clean_step r) (rev (out b)) (mkbuf [] 0) = b.
Proof.
  destruct b as [o d]. intros (names & Hout & Hnames & Hroot).
  cbn [out dotdot] in *. subst o.
  rewrite rev_app_distr, rev_repeat, fold_left_app.
  assert (Hreal : Forall real_element (rev names)).
  { apply Forall_rev. eapply Forall_impl; [|exact Hnames]. now intros e [_ He]. }
  destruct r.
  - rewrite (Hroot eq_refl). cbn [repeat fold_left].
    rewrite (fold_clean_names _ _ Hreal). cbn [out dotdot].
    now rewrite rev_involutive.
  - change (mkbuf [] 0) with (mkbuf (repeat ".." 0) 0).
    rewrite (fold_clean_dotdots d 0), (fold_clean_names _ _ Hreal).
    cbn [out dotdot]. now rewrite rev_involutive, Nat.add_0_r.
Qed.

Lemma buf_ok_out_no_sep (r : bool) (b : lazybuf) :
  buf_ok r b -> Forall (fun e => has_sep e = false /\ e <> "" /\ e <> ".") (out b).
Proof.
  intros (names & Hout & Hnames & _). rewrite Hout.
  apply Forall_app. split.
  - eapply Forall_impl; [|exact Hnames].
    intros e (Hsep & H0 & H1 & _). repeat split; [exact Hsep | |];
      intros ->; discriminate.
  - apply Forall_forall. intros e He. apply repeat_spec in He. subst e.
    repeat split; discriminate.
Qed.

Lemma rev_nonempty (A : Type) (l : list A) : l <> [] -> rev l <> [].
Proof.
  intros Hne Hnil. apply Hne. now rewrite <- (rev_involutive l), Hnil.
Qed.

(** The text of a non-empty buffer starts with the first byte of its
    first element, which is not a separator. *)
Lemma Join_head (l : list string) :
  l <> [] ->
  Forall (fun e => has_sep e = false /\ e <> "" /\ e <> ".") l ->
  exists c rest,
    strings.Join l "/" = String c rest /\ IsPathSeparator c = false /\
    String c rest <> ".".
Proof.
  intros Hne Hall. destruct l as [|x l]; [congruence|].
  inversion Hall as [|? ? (Hsep & H0 & H1) _]; subst.
  destruct x as [|c x]; [congruence|].
  cbn [has_sep] in Hsep. apply orb_false_iff in Hsep as [Hc Hx].
  destruct l as [|y l].
  - exists c, x. auto.
  - exists c, (x ++ "/" ++ strings.Join (y :: l) "/").
    repeat split; [exact Hc|].
    destruct x; cbn; discriminate.
Qed.

Lemma render_facts (r : bool) (b : lazybuf) :
  buf_ok r b ->
  fold_left (clean_step r) (elements (render r b)) (mkbuf [] 0) = b /\
  rooted (render r b) = r /\
  render r b <> "" /\
  (out b <> [] -> render r b <> "/" /\ render r b <> ".").
Proof.
  intros Hok. pose proof (buf_ok_out_no_sep r b Hok) as Hall.
  pose proof (fold_clean_rev_out r b Hok) as Hfold.
  assert (Hrev : Forall (fun e => has_sep e = false /\ e <> "" /\ e <> ".") (rev (out b)))
    by now apply Forall_rev.
  assert (Hsep : Forall (fun e => has_sep e = false) (rev (out b)))
    by (eapply Forall_impl; [|exact Hrev]; now intros e [He _]).
  unfold render. destruct (out b) as [|x o] eqn:Hout.
  - destruct Hok as (names & Hn & _ & Hroot). rewrite Hout in Hn.
    symmetry in Hn. apply app_eq_nil in Hn as [_ Hd].
    assert (Hb : b = mkbuf [] 0).
    { destruct b as [o d]. cbn [out dotdot] in *. subst o.
      destruct d; [reflexivity | discriminate]. }
    destruct r; cbn; rewrite Hb; repeat split; congruence.
  - assert (Hne : rev (x :: o) <> []) by (apply rev_nonempty; discriminate).
    destruct (Join_head _ Hne Hrev) as (c & rest & Hj & Hc & Hdot).
    destruct r.
    + change ("/" ++ strings.Join (rev (x :: o)) "/")
        with (String Separator (strings.Join (rev (x :: o)) "/")).
      cbn [elements rooted]. unfold IsPathSeparator at 1.
      rewrite Ascii.eqb_refl, (elements_Join _ Hne Hsep).
      cbn [fold_left]. change (clean_step true (mkbuf [] 0) "") with (mkbuf [] 0).
      repeat split; try assumption; try discriminate.
      rewrite Hj. discriminate.
    + rewrite (elements_Join _ Hne Hsep). rewrite Hj in *.
      cbn [rooted]. repeat split; try assumption; try discriminate.
      intros E. injection E as -> _. discriminate.
Qed.

(** [Clean] leaves what it produced as it is. *)
Lemma Clean_render (r : bool) (b : lazybuf) :
  buf_ok r b -> Clean (render r b) = render r b.
Proof.
  intros Hok. destruct (render_facts r b Hok) as (Hfold & Hroot & Hne & _).
  rewrite (Clean_nonempty _ Hne). unfold clean_buf.
  now rewrite Hroot, Hfold.
Qed.

Lemma Clean_idempotent (path : string) : Clean (Clean path) = Clean path.
Proof.
  destruct (String.eqb_spec path "") as [->|Hne]; [reflexivity|].
  rewrite (Clean_nonempty path Hne).
  apply Clean_render, clean_buf_ok.
Qed.

Lemma Clean_not_empty (path : string) : Clean path <> "".
Proof.
  destruct (String.eqb_spec path "") as [->|Hne]; [discriminate|].
  rewrite (Clean_nonempty path Hne).
  apply (render_facts _ _ (clean_buf_ok path)).
Qed.

End CleanBuffer.

(** ** Paths built under a cleaned directory *)

Section CleanedDirectory.

Import filepath.

Lemma render_push (r : bool) (b : lazybuf) (e : string) :
  out b <> [] ->
  render r (mkbuf (e :: out b) (dotdot b)) = render r b ++ "/" ++ e.
Proof.
  intros Hne. unfold render. cbn [out rev].
  rewrite (Join_snoc _ e "/" (rev_nonempty _ _ Hne)).
  destruct r.
  - now rewrite append_assoc.
  - destruct (out b); [congruence | reflexivity].
Qed.

Lemma Clean_fixed_buf (dir : string) :
  Clean dir = dir ->
  dir <> "" /\ render (rooted dir) (clean_buf dir) = dir.
Proof.
  intros Hfix.
  assert (Hne : dir <> "") by (rewrite <- Hfix; apply Clean_not_empty).
  split; [exact Hne|]. now rewrite <- (Clean_nonempty dir Hne).
Qed.

(** A name joined to a cleaned directory other than [/] and [.] is put
    behind it after one separator. *)
Lemma Join_child (dir name : string) :
  Clean dir = dir -> dir <> "/" -> dir <> "." ->
  has_sep name = false -> real_element name ->
  Join [dir; name] = dir ++ "/" ++ name.
Proof.
  intros Hfix Hroot Hdot Hsep Hreal.
  destruct (Clean_fixed_buf dir Hfix) as [Hne Hrender].
  unfold Join. destruct (String.eqb_spec dir "") as [E|_]; [contradiction|].
  change (strings.Join [dir; name] "/") with (dir ++ String Separator name).
  rewrite Clean_nonempty by (destruct dir; [congruence | discriminate]).
  unfold clean_buf.
  rewrite rooted_app, elements_app_sep, (elements_no_sep name Hsep), fold_left_app
    by assumption.
  fold (clean_buf dir). cbn [fold_left].
  rewrite (clean_step_real _ _ name Hreal), render_push, Hrender; [reflexivity|].
  intros Hnil. unfold render in Hrender. rewrite Hnil in Hrender.
  destruct (rooted dir); cbn in Hrender; congruence.
Qed.

(** The candidate configuration directory of any non-empty home
    directory. *)
Lemma config_candidate (home : string) :
  home <> "" ->
  Join [home; ".config"; "nordvpn/"]
  = home_prefix (Clean home) ++ ".config/nordvpn".
Proof.
  intros Hne.
  pose proof (clean_buf_ok home) as Hok.
  destruct (render_facts _ _ Hok) as (_ & Hrooted & _ & Hlong).
  unfold Join. destruct (String.eqb_spec home "") as [E|_]; [contradiction|].
  change (strings.Join [home; ".config"; "nordvpn/"] "/")
    with (home ++ String Separator ".config/nordvpn/").
  rewrite (Clean_nonempty home Hne).
  rewrite Clean_nonempty by (destruct home; [congruence | discriminate]).
  unfold clean_buf at 1.
  rewrite rooted_app, elements_app_sep, fold_left_app, fold_config_tail by assumption.
  fold (clean_buf home).
  destruct (out (clean_buf home)) as [|x o] eqn:Hout.
  - unfold home_prefix, render. cbn [out]. rewrite Hout.
    destruct (rooted home); reflexivity.
  - destruct Hlong as [Hroot Hdot]; [discriminate|].
    rewrite <- Hout.
    rewrite (render_config_tail _ _ _ eq_refl Hroot Hdot).
    unfold home_prefix.
    destruct (String.eqb_spec (render (rooted home) (clean_buf home)) "/");
      [contradiction|].
    destruct (String.eqb_spec (render (rooted home) (clean_buf home)) ".");
      [contradiction|].
    now rewrite append_assoc.
Qed.

Lemma home_prefix_config_long (home : string) :
  home_prefix home ++ ".config/nordvpn" <> "/" /\
  home_prefix home ++ ".config/nordvpn" <> "." /\
  home_prefix home ++ ".config/nordvpn" <> "".
Proof.
  unfold home_prefix.
  destruct (String.eqb home "/"); [repeat split; discriminate|].
  destruct (String.eqb home "."); [repeat split; discriminate|].
  destruct home as [|c [|c' home]]; repeat split; cbn; discriminate.
Qed.

Lemma Clean_rooted (path : string) :
  path <> "" -> rooted (Clean path) = rooted path.
Proof.
  intros Hne. rewrite (Clean_nonempty path Hne).
  apply (render_facts _ _ (clean_buf_ok path)).
Qed.

End CleanedDirectory.

(** ** More on [GetFilesharedConfigDirPath] *)

(** X1.  The result depends on the home directory only through its
    cleaned form: a separator at the end, doubled separators, [.] and
    [..] elements in a non-empty home directory make no difference. *)
Theorem GetFilesharedConfigDirPath_cleaned_home (sys : OS) (home : string) :
  home <> "" ->
  GetFilesharedConfigDirPath sys home
  = GetFilesharedConfigDirPath sys (filepath.Clean home).
Proof.
  intros Hne.
  rewrite (config_dir_nonempty sys home Hne).
  rewrite (config_dir_nonempty sys _ (Clean_not_empty home)).
  rewrite (config_candidate home Hne).
  rewrite (config_candidate _ (Clean_not_empty home)).
  now rewrite Clean_idempotent.
Qed.

Lemma GetFilesharedConfigDirPath_cleaned_home_witness :
  GetFilesharedConfigDirPath desktop "/home//bob/../alice/./"
  = GetFilesharedConfigDirPath desktop "/home/alice".
Proof.
  apply (GetFilesharedConfigDirPath_cleaned_home desktop "/home//bob/../alice/./").
  discriminate.
Defined.

Lemma config_dir_ok_facts (sys : OS) (home p : string) :
  GetFilesharedConfigDirPath sys home = (p, None) ->
  p = home_prefix (filepath.Clean home) ++ ".config/nordvpn" /\
  filepath.Clean p = p /\
  filepath.rooted p = filepath.rooted home.
Proof.
  intros Hret.
  destruct (String.eqb_spec home "") as [->|Hne]; [discriminate|].
  rewrite (config_dir_nonempty sys home Hne) in Hret.
  destruct (stat_errno sys (filepath.Join [home; ".config"; "nordvpn/"]));
    [discriminate|].
  injection Hret as <-. split; [now apply config_candidate|].
  unfold filepath.Join.
  destruct (String.eqb_spec home "") as [E|_]; [contradiction|].
  split; [apply Clean_idempotent|].
  rewrite Clean_rooted by (destruct home; [congruence | discriminate]).
  change (strings.Join [home; ".config"; "nordvpn/"] "/")
    with (home ++ "/.config/nordvpn/").
  now apply rooted_app.
Qed.

(** X2.  A directory returned with a nil error is the cleaned home
    directory followed by [/.config/nordvpn] (the root directory brings
    its own separator and the home directory [.] is dropped); it is in
    cleaned form, so it has no separator at the end, and it is absolute
    exactly when the home directory is. *)
Theorem GetFilesharedConfigDirPath_result_shape (sys : OS) (home p : string) :
  GetFilesharedConfigDirPath sys home = (p, None) ->
  p = home_prefix (filepath.Clean home) ++ ".config/nordvpn" /\
  filepath.Clean p = p /\
  filepath.rooted p = filepath.rooted home.
Proof.
  apply config_dir_ok_facts.
Qed.

Lemma GetFilesharedConfigDirPath_result_shape_witness :
  "/home/alice/.config/nordvpn" = home_prefix (filepath.Clean "/home/alice/") ++ ".config/nordvpn" /\
  filepath.Clean "/home/alice/.config/nordvpn" = "/home/alice/.config/nordvpn" /\
  filepath.rooted "/home/alice/.config/nordvpn" = filepath.rooted "/home/alice/".
Proof.
  apply (GetFilesharedConfigDirPath_result_shape desktop "/home/alice/").
  reflexivity.
Defined.

(** ** More on [GetFilesharedLogPath] *)

Lemma log_path_under_config_dir (sys : OS) (uid : string) (u : user.User)
      (dir : string) (lines : list string) :
  uid <> "0" ->
  user.LookupId sys uid = (Some u, None) ->
  GetFilesharedConfigDirPath sys (user.HomeDir u) = (dir, None) ->
  GetFilesharedLogPath sys uid lines
  = (Returned (dir ++ "/nordfileshared.log"), lines).
Proof.
  intros Hne Hlookup Hcfg.
  rewrite (log_path_config_ok sys uid u dir lines Hne Hlookup Hcfg).
  destruct (config_dir_ok_facts _ _ _ Hcfg) as (Hshape & Hclean & _).
  destruct (home_prefix_config_long (filepath.Clean (user.HomeDir u)))
    as (Hroot & Hdot & _).
  rewrite <- Hshape in Hroot, Hdot.
  rewrite Join_child; try assumption; try reflexivity.
  repeat split; reflexivity.
Qed.

(** X3.  When the user is found and the configuration directory is
    resolved, the log file is [nordfileshared.log] directly inside the
    directory [GetFilesharedConfigDirPath] returned, and nothing is
    logged. *)
Theorem GetFilesharedLogPath_under_config_dir
        (sys : OS) (uid : string) (u : user.User) (dir : string) (lines : list string) :
  uid <> "0" ->
  user.LookupId sys uid = (Some u, None) ->
  GetFilesharedConfigDirPath sys (user.HomeDir u) = (dir, None) ->
  GetFilesharedLogPath sys uid lines
  = (Returned (dir ++ "/nordfileshared.log"), lines).
Proof.
  apply log_path_under_config_dir.
Qed.

Lemma GetFilesharedLogPath_under_config_dir_witness :
  GetFilesharedLogPath desktop "1000" []
  = (Returned "/home/alice/.config/nordvpn/nordfileshared.log", []).
Proof.
  apply (GetFilesharedLogPath_under_config_dir desktop "1000" (user.buildUser alice)
           "/home/alice/.config/nordvpn" []);
    [discriminate | reflexivity | reflexivity].
Defined.

(** X5.  An account whose entry in the user database has an empty home
    directory gets the fallback log file in the log directory, with the
    warning that the user has no home directory, whatever [stat] would
    answer. *)
Theorem GetFilesharedLogPath_empty_home
        (sys : OS) (uid : string) (i : Z) (pwd : passwd) (lines : list string) :
  uid <> "0" ->
  Atoi uid = (i, None) ->
  getpwuid sys i = Found pwd ->
  pw_dir pwd = "" ->
  GetFilesharedLogPath sys uid lines
  = (Returned ("/var/log/nordvpn/nordfileshared-" ++ uid ++ ".log"),
     (lines ++ ["users fileshared logs will be stored in /var/log/nordvpn/: user does not have a home directory"])%list).
Proof.
  intros Hne Hatoi Hpw Hdir.
  apply (log_path_config_failure sys uid (user.buildUser pwd) errNoHome lines Hne).
  - unfold user.LookupId. now rewrite Hatoi, Hpw.
  - cbn [user.buildUser user.HomeDir]. now rewrite Hdir.
Qed.

Lemma GetFilesharedLogPath_empty_home_witness :
  GetFilesharedLogPath
    (mkOS (fun _ => true) (fun _ => None)
          (fun _ => Found (mkpasswd "daemon" 2 2 "" "")) (fun _ => Missing))
    "2" []
  = (Returned "/var/log/nordvpn/nordfileshared-2.log",
     ["users fileshared logs will be stored in /var/log/nordvpn/: user does not have a home directory"]).
Proof.
  apply (GetFilesharedLogPath_empty_home _ "2" 2 (mkpasswd "daemon" 2 2 "" "") []);
    [discriminate | reflexivity | reflexivity | reflexivity].
Defined.

(** X6.  A call keeps the lines logged before it and adds at most one;
    it adds none exactly when the uid is ["0"] or the user is found and
    the configuration directory is resolved. *)
Theorem GetFilesharedLogPath_logs_at_most_once
        (sys : OS) (uid : string) (lines : list string) :
  exists added,
    snd (GetFilesharedLogPath sys uid lines) = (lines ++ added)%list /\
    Datatypes.length added <= 1 /\
    (added = [] <->
     uid = "0" \/
     exists u dir,
       user.LookupId sys uid = (Some u, None) /\
       GetFilesharedConfigDirPath sys (user.HomeDir u) = (dir, None)).
Proof.
  destruct (String.eqb_spec uid "0") as [->|Hne].
  - exists []. rewrite app_nil_r. repeat split; auto.
  - destruct (LookupId_shape sys uid) as [[u Hu] | [e He]].
    + destruct (GetFilesharedConfigDirPath sys (user.HomeDir u)) as [dir [e|]] eqn:Hcfg.
      * exists [fallback_warning e].
        rewrite (log_path_config_failure sys uid u e lines Hne Hu)
          by now rewrite Hcfg.
        repeat split; auto; [discriminate|].
        intros [E | (u' & dir' & Hu' & Hcfg')]; [contradiction|].
        rewrite Hu in Hu'. injection Hu' as <-. rewrite Hcfg in Hcfg'. discriminate.
      * exists []. rewrite (log_path_config_ok sys uid u dir lines Hne Hu Hcfg).
        rewrite app_nil_r. repeat split; auto. intros _. right. eauto.
    + exists [lookup_warning e].
      rewrite (log_path_lookup_failure sys uid e lines Hne He).
      repeat split; auto; [discriminate|].
      intros [E | (u' & dir' & Hu' & _)]; [contradiction|].
      rewrite He in Hu'. discriminate.
Qed.

(** ** Cancellation in string equations *)

Lemma length_append (a b : string) :
  String.length (a ++ b) = String.length a + String.length b.
Proof.
  induction a as [|c a IH]; cbn; [reflexivity | now rewrite IH].
Qed.

Lemma append_inv_head (a s t : string) : a ++ s = a ++ t -> s = t.
Proof.
  induction a as [|c a IH]; cbn; intros H; [exact H|].
  injection H as H. now apply IH.
Qed.

Lemma append_inv_tail (s : string) : forall a b, a ++ s = b ++ s -> a = b.
Proof.
  induction a as [|c a IH]; intros [|c' b] H; cbn in H.
  - reflexivity.
  - apply (f_equal String.length) in H. cbn in H. rewrite length_append in H. lia.
  - apply (f_equal String.length) in H. cbn in H. rewrite length_append in H. lia.
  - injection H as -> H. f_equal. now apply IH.
Qed.

(** ** The text [strconv.Itoa] prints *)

Lemma Itoa_inj (a b : Z) : strconv.Itoa a = strconv.Itoa b -> a = b.
Proof.
  unfold strconv.Itoa. intros H.
  assert (Hnil : forall z, Z.to_int z <> Decimal.Pos Decimal.Nil /\
                           Z.to_int z <> Decimal.Neg Decimal.Nil).
  { intros [|p|p]; split; try discriminate; cbn;
      intros E; injection E as E; exact (Unsigned.to_uint_nonnil p E). }
  apply to_int_inj.
  assert (E : Some (Z.to_int a) = Some (Z.to_int b)).
  { rewrite <- (NilZero.isi (Z.to_int a)), <- (NilZero.isi (Z.to_int b));
      try apply Hnil. now rewrite H. }
  now injection E.
Qed.

Lemma string_of_uint_no_sep (d : Decimal.uint) :
  filepath.has_sep (NilEmpty.string_of_uint d) = false.
Proof.
  induction d; cbn; auto.
Qed.

Lemma string_of_uint_real (p : positive) :
  filepath.has_sep (NilZero.string_of_uint (Pos.to_uint p)) = false /\
  exists c rest,
    NilZero.string_of_uint (Pos.to_uint p) = String c rest /\
    Ascii.eqb c "." = false.
Proof.
  pose proof (Unsigned.to_uint_nonnil p) as Hnil.
  destruct (Pos.to_uint p) eqn:E; [congruence | ..];
    (split; [apply (string_of_uint_no_sep (_ _)) | eexists; eexists; split; reflexivity]).
Qed.

(** The text of a number is one path element: it holds no separator
    and is none of the empty text, [.] and [..]. *)
Lemma Itoa_element (z : Z) :
  filepath.has_sep (strconv.Itoa z) = false /\ filepath.real_element (strconv.Itoa z).
Proof.
  unfold strconv.Itoa, filepath.real_element.
  destruct z as [|p|p]; cbn [Z.to_int NilZero.string_of_int].
  - repeat split; reflexivity.
  - destruct (string_of_uint_real p) as (Hsep & c & rest & Hs & Hc).
    rewrite Hs in *. cbn [String.eqb]. rewrite Hc. auto.
  - destruct (string_of_uint_real p) as (Hsep & _).
    cbn [filepath.has_sep String.eqb]. rewrite Hsep. repeat split; reflexivity.
Qed.

(** X4.  Two users whose logs fall back to the log directory never
    share a log file: for different uid texts the fallback paths
    differ, and neither is the log file of uid ["0"]. *)
Theorem GetFilesharedLogPath_fallback_distinct
        (sys : OS) (uid1 uid2 : string) (u1 u2 : user.User) (e1 e2 : error)
        (lines1 lines2 : list string) :
  uid1 <> "0" -> uid2 <> "0" -> uid1 <> uid2 ->
  user.LookupId sys uid1 = (Some u1, None) ->
  user.LookupId sys uid2 = (Some u2, None) ->
  snd (GetFilesharedConfigDirPath sys (user.HomeDir u1)) = Some e1 ->
  snd (GetFilesharedConfigDirPath sys (user.HomeDir u2)) = Some e2 ->
  fst (GetFilesharedLogPath sys uid1 lines1) <> fst (GetFilesharedLogPath sys uid2 lines2) /\
  fst (GetFilesharedLogPath sys uid1 lines1) <> fst (GetFilesharedLogPath sys "0" lines1).
Proof.
  intros Hne1 Hne2 Hdiff Hu1 Hu2 Hc1 Hc2.
  rewrite (log_path_config_failure sys uid1 u1 e1 lines1 Hne1 Hu1 Hc1).
  rewrite (log_path_config_failure sys uid2 u2 e2 lines2 Hne2 Hu2 Hc2).
  cbn [fst]. split.
  - intros E. injection E as E.
    apply append_inv_tail in E. contradiction.
  - cbn. discriminate.
Qed.

Lemma GetFilesharedLogPath_fallback_distinct_witness :
  fst (GetFilesharedLogPath locked "1000" []) <> fst (GetFilesharedLogPath locked "+1000" []) /\
  fst (GetFilesharedLogPath locked "1000" []) <> fst (GetFilesharedLogPath locked "0" []).
Proof.
  apply (GetFilesharedLogPath_fallback_distinct locked "1000" "+1000"
           (user.buildUser alice) (user.buildUser alice)
           errConfigNotFound errConfigNotFound);
    try discriminate; reflexivity.
Defined.

Lemma Join_cleaned (x y : string) :
  y <> "" -> filepath.Clean (filepath.Join [x; y]) = filepath.Join [x; y].
Proof.
  intros Hy. unfold filepath.Join.
  destruct (String.eqb x ""); [|apply Clean_idempotent].
  destruct (String.eqb_spec y ""); [contradiction | apply Clean_idempotent].
Qed.

Lemma Join_child_cleaned (dir name : string) :
  filepath.Clean dir = dir -> dir <> "/" -> dir <> "." ->
  filepath.has_sep name = false -> filepath.real_element name ->
  filepath.Clean (dir ++ "/" ++ name) = dir ++ "/" ++ name.
Proof.
  intros Hfix Hroot Hdot Hsep Hreal.
  rewrite <- (Join_child dir name Hfix Hroot Hdot Hsep Hreal).
  apply Join_cleaned. intros ->. destruct Hreal as [H _]. discriminate.
Qed.

(** X10.  Every path [GetFilesharedLogPath] returns is in cleaned
    form: [filepath.Clean] leaves it unchanged, so it has no doubled
    separator, no [.] element and no separator at the end, whatever the
    home directory of the user looks like. *)
Theorem GetFilesharedLogPath_returns_cleaned
        (sys : OS) (uid p : string) (lines lines' : list string) :
  GetFilesharedLogPath sys uid lines = (Returned p, lines') ->
  filepath.Clean p = p.
Proof.
  destruct (String.eqb_spec uid "0") as [->|Hne].
  - intros H. injection H as <- _. reflexivity.
  - destruct (LookupId_shape sys uid) as [[u Hu] | [e He]].
    + destruct (GetFilesharedConfigDirPath sys (user.HomeDir u)) as [dir [e|]] eqn:Hcfg.
      * rewrite (log_path_config_failure sys uid u e lines Hne Hu)
          by now rewrite Hcfg.
        intros H.
        assert (Hp : filepath.Join [LogPath; "nordfileshared-" ++ uid ++ ".log"] = p).
        { rewrite Join_LogPath; [injection H as H _; exact H | | repeat split; reflexivity].
          rewrite !has_sep_app, (LookupId_ok_no_sep _ _ _ Hu). reflexivity. }
        rewrite <- Hp. apply Join_cleaned. discriminate.
      * rewrite (log_path_config_ok sys uid u dir lines Hne Hu Hcfg).
        intros H.
        assert (Hp : filepath.Join [dir; "nordfileshared.log"] = p)
          by (injection H as H _; exact H).
        rewrite <- Hp. apply Join_cleaned. discriminate.
    + rewrite (log_path_lookup_failure sys uid e lines Hne He). discriminate.
Qed.

Lemma GetFilesharedLogPath_returns_cleaned_witness :
  filepath.Clean "/home/alice/.config/nordvpn/nordfileshared.log"
  = "/home/alice/.config/nordvpn/nordfileshared.log".
Proof.
  apply (GetFilesharedLogPath_returns_cleaned desktop "1000" _ [] []).
  reflexivity.
Defined.

(** ** More on [GetFilesharedSocket] *)

Lemma user_socket_inj (a b : Z) : user_socket a = user_socket b -> a = b.
Proof.
  unfold user_socket. intros H.
  apply append_inv_head, append_inv_tail in H. now apply Itoa_inj.
Qed.

(** X7.  Two different uids never get the same per-user socket: if
    the function returns one path for both, that path is the
    system-wide socket. *)
Theorem GetFilesharedSocket_shared_only_system (sys : OS) (a b : Z) :
  a <> b ->
  GetFilesharedSocket sys a = GetFilesharedSocket sys b ->
  GetFilesharedSocket sys a = "/run/nordfileshared/nordfileshared.sock".
Proof.
  intros Hdiff Hsame.
  change "/run/nordfileshared/nordfileshared.sock" with system_socket.
  assert (Hcases : forall uid,
             GetFilesharedSocket sys uid = system_socket \/
             GetFilesharedSocket sys uid = user_socket uid).
  { intros uid. unfold GetFilesharedSocket.
    destruct (orb _ _); auto. }
  destruct (Hcases a) as [Ha | Ha]; [exact Ha|].
  destruct (Hcases b) as [Hb | Hb]; rewrite Ha, Hb in Hsame.
  - exact (False_ind _ (user_socket_not_system a Hsame)).
  - exact (False_ind _ (Hdiff (user_socket_inj a b Hsame))).
Qed.

Lemma GetFilesharedSocket_shared_only_system_witness :
  GetFilesharedSocket desktop 1001 = "/run/nordfileshared/nordfileshared.sock".
Proof.
  apply (GetFilesharedSocket_shared_only_system desktop 1001 1002);
    [discriminate | reflexivity].
Defined.

(** X8.  Uid 0 is the only uid whose socket does not depend on the
    machine: every other uid, negative ones included, gets the per-user
    socket on some machine and the system-wide socket on another. *)
Theorem GetFilesharedSocket_only_root_fixed (uid : Z) :
  (forall sys, GetFilesharedSocket sys uid = "/run/nordfileshared/nordfileshared.sock")
  <-> uid = 0%Z.
Proof.
  split.
  - intros H. destruct (Z.eq_dec uid 0) as [E|Hne]; [exact E|].
    specialize (H roomy).
    rewrite (GetFilesharedSocket_nonzero roomy uid Hne) in H.
    exact (False_ind _ (user_socket_not_system uid H)).
  - intros -> sys. reflexivity.
Qed.

Lemma GetFilesharedSocket_only_root_fixed_witness :
  GetFilesharedSocket roomy 0 = "/run/nordfileshared/nordfileshared.sock".
Proof.
  apply (proj2 (GetFilesharedSocket_only_root_fixed 0) eq_refl roomy).
Defined.

(** X9.  The socket path returned is always absolute and in cleaned
    form, for every uid, and it is never the socket of the VPN daemon
    [/run/nordvpn/nordvpnd.sock]. *)
Theorem GetFilesharedSocket_cleaned (sys : OS) (uid : Z) :
  filepath.rooted (GetFilesharedSocket sys uid) = true /\
  filepath.Clean (GetFilesharedSocket sys uid) = GetFilesharedSocket sys uid /\
  GetFilesharedSocket sys uid <> DaemonSocket.
Proof.
  assert (Huser : filepath.Clean (user_socket uid) = user_socket uid).
  { destruct (Itoa_element uid) as [Hsep Hreal].
    pose (d1 := "/run/user" ++ "/" ++ strconv.Itoa uid).
    pose (d2 := d1 ++ "/" ++ "nordfileshared").
    assert (H1 : filepath.Clean d1 = d1).
    { apply Join_child_cleaned; try assumption; try reflexivity; discriminate. }
    assert (H2 : filepath.Clean d2 = d2).
    { apply Join_child_cleaned; try assumption; try reflexivity;
        try (repeat split; reflexivity); intros E; cbn in E; discriminate. }
    assert (H3 : filepath.Clean (d2 ++ "/" ++ "nordfileshared.sock")
                 = d2 ++ "/" ++ "nordfileshared.sock").
    { apply Join_child_cleaned; try assumption; try reflexivity;
        try (repeat split; reflexivity); intros E; cbn in E; discriminate. }
    replace (user_socket uid) with (d2 ++ "/" ++ "nordfileshared.sock"); [exact H3|].
    unfold d2, d1, user_socket. rewrite !append_assoc. reflexivity. }
  unfold GetFilesharedSocket.
  destruct (orb _ _); repeat split; try reflexivity; try assumption; discriminate.
Qed.

(** ** Where the results can lie *)

(** X11.  The uid text cannot steer the log file elsewhere: a path
    returned for a uid other than ["0"] is either one file name (free
    of separators, starting with [nordfileshared-]) directly inside
    [/var/log/nordvpn/], or [nordfileshared.log] directly inside the
    configuration directory resolved for the user. *)
Theorem GetFilesharedLogPath_no_traversal
        (sys : OS) (uid p : string) (lines lines' : list string) :
  uid <> "0" ->
  GetFilesharedLogPath sys uid lines = (Returned p, lines') ->
  (exists name,
     filepath.has_sep name = false /\
     p = "/var/log/nordvpn/" ++ name /\
     name = "nordfileshared-" ++ uid ++ ".log") \/
  (exists u dir,
     user.LookupId sys uid = (Some u, None) /\
     GetFilesharedConfigDirPath sys (user.HomeDir u) = (dir, None) /\
     p = dir ++ "/nordfileshared.log").
Proof.
  intros Hne.
  destruct (LookupId_shape sys uid) as [[u Hu] | [e He]].
  - destruct (GetFilesharedConfigDirPath sys (user.HomeDir u)) as [dir [e|]] eqn:Hcfg.
    + rewrite (log_path_config_failure sys uid u e lines Hne Hu) by now rewrite Hcfg.
      intros H. left. exists ("nordfileshared-" ++ uid ++ ".log").
      split; [|split; [|reflexivity]].
      * rewrite !has_sep_app, (LookupId_ok_no_sep _ _ _ Hu). reflexivity.
      * injection H as H _. symmetry. exact H.
    + rewrite (log_path_under_config_dir sys uid u dir lines Hne Hu Hcfg).
      intros H. right. exists u, dir.
      split; [exact Hu | split; [exact Hcfg|]].
      injection H as H _. symmetry. exact H.
  - rewrite (log_path_lookup_failure sys uid e lines Hne He). discriminate.
Qed.

Lemma GetFilesharedLogPath_no_traversal_witness :
  (exists name,
     filepath.has_sep name = false /\
     "/var/log/nordvpn/nordfileshared-1001.log" = "/var/log/nordvpn/" ++ name /\
     name = "nordfileshared-" ++ "1001" ++ ".log") \/
  (exists u dir,
     user.LookupId desktop "1001" = (Some u, None) /\
     GetFilesharedConfigDirPath desktop (user.HomeDir u) = (dir, None) /\
     "/var/log/nordvpn/nordfileshared-1001.log" = dir ++ "/nordfileshared.log").
Proof.
  apply (GetFilesharedLogPath_no_traversal desktop "1001" _ []
           [fallback_warning errConfigNotFound]);
    [discriminate | reflexivity].
Defined.

(** X12.  [GetFilesharedConfigDirPath] never returns a path together
    with an error, nor an empty path with a nil error: either the error
    is nil and the path is not empty, or the path is empty and the
    error is "no home directory" (exactly for the empty home directory)
    or "directory not found". *)
Theorem GetFilesharedConfigDirPath_path_or_error
        (sys : OS) (home p : string) (err : option error) :
  GetFilesharedConfigDirPath sys home = (p, err) ->
  (err = None /\ p <> "") \/
  (p = "" /\ err = Some errNoHome /\ home = "") \/
  (p = "" /\ err = Some errConfigNotFound /\ home <> "").
Proof.
  destruct (String.eqb_spec home "") as [->|Hne].
  - intros H. injection H as <- <-. right. left. auto.
  - rewrite (config_dir_nonempty sys home Hne).
    destruct (stat_errno sys (filepath.Join [home; ".config"; "nordvpn/"])).
    + intros H. injection H as <- <-. right. right. auto.
    + intros H. left.
      assert (Hp : filepath.Join [home; ".config"; "nordvpn/"] = p)
        by (injection H as H _; exact H).
      split; [now injection H as _ <-|].
      rewrite <- Hp, (config_candidate home Hne).
      apply home_prefix_config_long.
Qed.

Lemma GetFilesharedConfigDirPath_path_or_error_witness :
  (Some errConfigNotFound = None /\ "" <> "") \/
  ("" = "" /\ Some errConfigNotFound = Some errNoHome /\ "/home/bob" = "") \/
  ("" = "" /\ Some errConfigNotFound = Some errConfigNotFound /\ "/home/bob" <> "").
Proof.
  apply (GetFilesharedConfigDirPath_path_or_error desktop "/home/bob").
  reflexivity.
Defined.
